(** * optimistix: the iteration driver and the root-finding entry point

    A shallow embedding of [optimistix/_iterate.py] and
    [optimistix/_root_find.py].  JAX values are PyTrees; the functions of
    equinox and jax.tree_util that the two files call are given their
    documented behaviour on that data; solver calls are recorded in an event
    log so that "how often" and "in which order" can be stated. *)

From Stdlib Require Import ZArith QArith Qabs Qminmax Lia.
From stdpp Require Import base option list strings gmap.

Local Open Scope Z_scope.

(** ** PyTrees *)

Inductive dtype := float32 | float64 | int32 | int64 | bool_.

(** A [jax.Array]: shape, dtype and the payload in row-major order.  Floating
    point payloads are idealised as rationals. *)
Record array := mk_array {
  shape : list nat;
  adtype : dtype;
  data : list Q
}.

(** What [jax.tree_util] sees as a leaf. *)
Inductive leaf :=
| Arr (a : array)                                (* jax.Array *)
| Jaxpr (id : nat)                               (* jax.core.Jaxpr / ClosedJaxpr *)
| ShapeDtypeStruct (sh : list nat) (dt : dtype)  (* jax.ShapeDtypeStruct *)
| PyNum (q : Q)                                  (* a Python int or float *)
| PyObj (name : string).                         (* any other Python object *)

(** [PNone] is Python's [None] (a PyTree without leaves), [Static v] is
    [eqxi.Static(v)] (an equinox Module whose only field is static, hence
    also without leaves), [Node] is a tuple. *)
#[local] Unset Elimination Schemes.
Inductive pytree :=
| Leaf (l : leaf)
| PNone
| Static (v : leaf)
| Node (children : list pytree).
#[local] Set Elimination Schemes.

Section PytreeInd.
Variable P : pytree -> Prop.
Hypothesis HLeaf : forall l, P (Leaf l).
Hypothesis HNone : P PNone.
Hypothesis HStatic : forall v, P (Static v).
Hypothesis HNode : forall ts, Forall P ts -> P (Node ts).

Fixpoint pytree_ind' (t : pytree) : P t :=
  match t with
  | Leaf l => HLeaf l
  | PNone => HNone
  | Static v => HStatic v
  | Node ts =>
      HNode ts
        ((fix go (l : list pytree) : Forall P l :=
            match l with
            | [] => @List.Forall_nil _ P
            | x :: r => @List.Forall_cons _ P x r (pytree_ind' x) (go r)
            end) ts)
  end.
End PytreeInd.

#[global] Instance dtype_eq_dec : EqDecision dtype.
Proof. solve_decision. Defined.
#[global] Instance Q_eq_dec : EqDecision Q.
Proof. solve_decision. Defined.
#[global] Instance array_eq_dec : EqDecision array.
Proof. solve_decision. Defined.
#[global] Instance leaf_eq_dec : EqDecision leaf.
Proof. solve_decision. Defined.

(** [isinstance(x, (jax.core.Jaxpr, jax.core.ClosedJaxpr))] *)
Definition _is_jaxpr (x : leaf) : bool :=
  match x with Jaxpr _ => true | _ => false end.

(** [eqx.is_array] *)
Definition is_array (x : leaf) : bool :=
  match x with Arr _ => true | _ => false end.

Definition _is_array_or_jaxpr (x : leaf) : bool :=
  _is_jaxpr x || is_array x.

(** [jtu.tree_map(f, t)]: [f] is applied to the leaves; [None] and
    [eqxi.Static] objects have none. *)
Fixpoint tree_map (f : leaf -> pytree) (t : pytree) : pytree :=
  match t with
  | Leaf l => f l
  | PNone => PNone
  | Static v => Static v
  | Node ts => Node (map (tree_map f) ts)
  end.

(** [eqx.filter(t, pred)] and [eqx.filter(t, pred, inverse=True)]: the
    leaves that are not kept are replaced by [None]. *)
Definition filter_leaf (pred : leaf -> bool) (inverse : bool) (l : leaf) : pytree :=
  if xorb (pred l) inverse then Leaf l else PNone.

Definition filter (t : pytree) (pred : leaf -> bool) (inverse : bool) : pytree :=
  tree_map (filter_leaf pred inverse) t.

(** [eqx.partition(t, pred)] *)
Definition partition (t : pytree) (pred : leaf -> bool) : pytree * pytree :=
  (filter t pred false, filter t pred true).

(** [eqx.combine(a, b)] is [jtu.tree_map(first_non_none, a, b,
    is_leaf=is_none)]: wherever [a] is [None] the whole of [b] is taken,
    wherever [a] has a leaf it wins, and tuples are combined pointwise.  A
    tuple in [a] facing anything but a tuple of the same length in [b] is a
    structure mismatch, which jax reports by raising. *)
Fixpoint combine (a b : pytree) : option pytree :=
  match a with
  | PNone => Some b
  | Leaf l => Some (Leaf l)
  | Static v => match b with Static w => if decide (v = w) then Some (Static v) else None | _ => None end
  | Node ts =>
      match b with
      | Node us =>
          Node <$>
            (fix go (l : list pytree) (r : list pytree) : option (list pytree) :=
               match l, r with
               | [], [] => Some []
               | x :: l', y :: r' =>
                   match combine x y, go l' r' with
                   | Some z, Some zs => Some (z :: zs)
                   | _, _ => None
                   end
               | _, _ => None
               end) ts us
      | _ => None
      end
  end.

(** [eqx.tree_equal(a, b)]: same structure and equal leaves. *)
Fixpoint tree_equal (a b : pytree) : bool :=
  match a, b with
  | Leaf x, Leaf y => bool_decide (x = y)
  | PNone, PNone => true
  | Static v, Static w => bool_decide (v = w)
  | Node ts, Node us =>
      (fix go (l : list pytree) (r : list pytree) : bool :=
         match l, r with
         | [], [] => true
         | x :: l', y :: r' => tree_equal x y && go l' r'
         | _, _ => false
         end) ts us
  | _, _ => false
  end.

(** ** Result codes, outcomes and the call log *)

(** Modelled from the spec: the enumeration [RESULTS] of [_solution.py],
    which is not among the sources.  The spec (section 3) lists
    [successful], [max_steps_reached], [diverged], [singular] and
    [root_conversion_failed]; the two source files name the members they use
    [RESULTS.successful], [RESULTS.nonlinear_max_steps_reached] and
    [RESULTS.nonlinear_root_conversion_failed]. *)
Inductive RESULTS :=
| successful
| nonlinear_max_steps_reached
| nonlinear_divergence
| singular
| nonlinear_root_conversion_failed.

#[global] Instance RESULTS_eq_dec : EqDecision RESULTS.
Proof. solve_decision. Defined.

(** [RESULTS.where(pred, a, b)] *)
Definition RESULTS_where (pred : bool) (a b : RESULTS) : RESULTS :=
  if pred then a else b.

(** The ways in which a call does not return a value: a failed [assert], the
    exception of [error_if] carrying the result code, any other Python
    exception (a tuple that does not unpack, a missing attribute, a PyTree
    structure mismatch), and an unbounded loop that is still running when the
    model stops following it. *)
Inductive failure :=
| AssertionError
| Raised (r : RESULTS)
| PyError
| StillRunning.

Inductive outcome (A : Type) :=
| Ok (a : A)
| Fail (e : failure).
Arguments Ok {A} a.
Arguments Fail {A} e.


(** The functions [fn(y, args)] handed to the solvers. *)
Definition Fn := pytree -> pytree -> pytree.

(** The calls that the driver and the entry point make to the solver and to
    [fn], in the order in which they happen. *)
Inductive event :=
| call_init (y args : pytree)
| call_terminate (y state : pytree)
| call_step (y state : pytree)
| call_fn (y args : pytree).

(** A computation: the calls it made, and how it ended. *)
Definition M (A : Type) : Type := list event * outcome A.

Definition ret {A} (a : A) : M A := ([], Ok a).
Definition raise {A} (e : failure) : M A := ([], Fail e).
Definition emit (e : event) : M unit := ([e], Ok tt).

Definition bind {A B} (m : M A) (k : A -> M B) : M B :=
  match m with
  | (l, Ok a) => let (l', r) := k a in (l ++ l', r)
  | (l, Fail e) => (l, Fail e)
  end.

Notation "'let*' x := c 'in' k" := (bind c (fun x => k))
  (at level 10, x name, c at level 100, k at level 200).
Notation "'let*' ' pat := c 'in' k" :=
  (bind c (fun x => match x with pat => k end))
  (at level 10, pat pattern, c at level 100, k at level 200).

Definition of_option {A} (o : option A) : M A :=
  match o with Some a => ret a | None => raise PyError end.

(** Python's [assert b] *)
Definition assert (b : bool) : M unit :=
  if b then ret tt else raise AssertionError.

(** ** The solver contract *)

(** [isinstance] of a solver, as far as [root_find] asks for it. *)
Inductive solver_class :=
| AbstractRootFinder
| AbstractLeastSquaresSolver
| AbstractMinimiser
| OtherIterativeSolver.

(** [AbstractIterativeSolver]: the four abstract methods.  [options] is a
    [dict[str, Any]], [tags] a [frozenset]; [step] returns
    [(new_y, new_state, aux)] and [terminate] returns [(stop, result)]. *)
Record AbstractIterativeSolver := mk_solver {
  class_of : solver_class;
  init : Fn -> pytree -> pytree -> gmap string pytree -> pytree -> pytree ->
         gset string -> pytree;
  step : Fn -> pytree -> pytree -> gmap string pytree -> pytree ->
         gset string -> pytree * pytree * pytree;
  terminate : Fn -> pytree -> pytree -> gmap string pytree -> pytree ->
              gset string -> bool * RESULTS;
  buffers : pytree -> list pytree
}.

(** ** [_iterate.py] *)

(** [jnp.zeros(shape, dtype=dtype)] *)
Definition jnp_zeros (sh : list nat) (dt : dtype) : array :=
  mk_array sh dt (repeat 0%Q (foldr Nat.mul 1%nat sh)).

Definition _zero (x : leaf) : pytree :=
  match x with
  | ShapeDtypeStruct sh dt => Leaf (Arr (jnp_zeros sh dt))
  | _ => Leaf x
  end.

(** The step counter is the integer array [jnp.array(0)]: 32 bits wide in
    jax's default configuration, with two's complement wrap-around. *)
Definition int_bits : Z := 32.
Definition int_max : Z := 2 ^ (int_bits - 1) - 1.

Definition wrap (z : Z) : Z :=
  (z + 2 ^ (int_bits - 1)) mod 2 ^ int_bits - 2 ^ (int_bits - 1).

Definition jnp_array_0 : Z := 0.
Definition jnp_add (a b : Z) : Z := wrap (a + b).

(** [jtu.tree_map(lambda x: x.value, t, is_leaf=static_leaf)]: every
    [eqxi.Static] is replaced by what it wraps; any other leaf has no
    attribute [value]. *)
Fixpoint static_values (t : pytree) : option pytree :=
  match t with
  | Leaf _ => None
  | PNone => Some PNone
  | Static v => Some (Leaf v)
  | Node ts => Node <$> mapM static_values ts
  end.

(** The carry of the loop: [(y, num_steps, dynamic_state, aux)]. *)
Definition carry : Type := pytree * Z * pytree * pytree.

(** What the adjoint passes as [while_loop]:
    [while_loop(cond_fun, body_fun, init_carry, max_steps=, buffers=)]. *)
Definition while_loop_t : Type :=
  (carry -> M bool) -> (carry -> M carry) -> carry -> option nat ->
  (carry -> list pytree) -> M carry.

(** The members of the tuple [inputs]. *)
Inductive pyval :=
| VFn (f : Fn)
| VTree (t : pytree)
| VSolver (s : AbstractIterativeSolver)
| VOptions (o : option (gmap string pytree))
| VMaxSteps (m : option nat)
| VTags (t : gset string).

Section Iterate.
(** The names that the closures [cond_fun], [body_fun] and [buffers] of
    [_iterate] capture. *)
Variables (fn : Fn) (args : pytree) (solver : AbstractIterativeSolver)
          (options : gmap string pytree) (tags : gset string)
          (static_state : pytree).

Definition cond_fun (c : carry) : M bool :=
  let '(y, _, dynamic_state, _) := c in
  let* state := of_option (combine static_state dynamic_state) in
  let* _ := emit (call_terminate y state) in
  let '(terminate, _) := solver.(terminate) fn y args options state tags in
  ret (negb terminate).

Definition body_fun (c : carry) : M carry :=
  let '(y, num_steps, dynamic_state, _) := c in
  let* state := of_option (combine static_state dynamic_state) in
  let* _ := emit (call_step y state) in
  let '(new_y, new_state, aux) := solver.(step) fn y args options state tags in
  let '(new_dynamic_state, new_static_state) := partition new_state is_array in
  let new_static_state_no_jaxpr := filter new_static_state _is_jaxpr true in
  let static_state_no_jaxpr := filter state _is_array_or_jaxpr true in
  let* _ := assert (tree_equal static_state_no_jaxpr new_static_state_no_jaxpr) in
  ret (new_y, jnp_add num_steps 1, new_dynamic_state, aux).

Definition buffers_fun (c : carry) : list pytree :=
  let '(_, _, state, _) := c in solver.(buffers) state.
End Iterate.

(** What [_iterate] does before the loop: unwrap the structs, default the
    options, zero the auxiliary slot, call [init] and split its state. *)
Definition init_carry (fn : Fn) (args : pytree) (solver : AbstractIterativeSolver)
    (y0 : pytree) (options : gmap string pytree) (f_struct aux_struct : pytree)
    (tags : gset string) : M (pytree * carry) :=
  let init_aux := tree_map _zero aux_struct in
  let* _ := emit (call_init y0 args) in
  let init_state := solver.(init) fn y0 args options f_struct aux_struct tags in
  let '(dynamic_init_state, static_state) := partition init_state is_array in
  ret (static_state, (y0, jnp_array_0, dynamic_init_state, init_aux)).

Definition options_or_empty (options : option (gmap string pytree)) :
    gmap string pytree :=
  match options with None => ∅ | Some o => o end.

(** The closing lines of [_iterate]:
    [RESULTS.where((result == RESULTS.successful) & jnp.invert(terminate),
                   RESULTS.nonlinear_max_steps_reached, result)]. *)
Definition final_result (terminate : bool) (result : RESULTS) : RESULTS :=
  RESULTS_where (bool_decide (result = successful) && negb terminate)
                nonlinear_max_steps_reached result.

Definition _iterate (inputs : list pyval) (while_loop : while_loop_t) :
    M (pytree * (Z * RESULTS * pytree * pytree)) :=
  match inputs with
  | [VFn fn; VTree args; VSolver solver; VTree y0; VOptions options;
     VMaxSteps max_steps; VTree f_struct; VTree aux_struct; VTags tags] =>
      let* f_struct := of_option (static_values f_struct) in
      let* aux_struct := of_option (static_values aux_struct) in
      let options := options_or_empty options in
      let* '(static_state, init_carry) := init_carry fn args solver y0 options f_struct aux_struct tags in
      let* final_carry :=
        while_loop (cond_fun fn args solver options tags static_state)
                   (body_fun fn args solver options tags static_state)
                   init_carry max_steps (buffers_fun solver) in
      let '(final_y, num_steps, final_state, aux) := final_carry in
      let* _final_state := of_option (combine static_state final_state) in
      let* _ := emit (call_terminate final_y _final_state) in
      let '(terminate, result) :=
        solver.(terminate) fn final_y args options _final_state tags in
      let result := final_result terminate result in
      ret (final_y, (num_steps, result, final_state, aux))
  | _ => raise PyError
  end.

(** The first half of [_iterate], up to and including
    [final_carry = while_loop(...)]: the carry the loop ends with. *)
Definition final_carry (inputs : list pyval) (while_loop : while_loop_t) :
    M carry :=
  match inputs with
  | [VFn fn; VTree args; VSolver solver; VTree y0; VOptions options;
     VMaxSteps max_steps; VTree f_struct; VTree aux_struct; VTags tags] =>
      let* f_struct := of_option (static_values f_struct) in
      let* aux_struct := of_option (static_values aux_struct) in
      let options := options_or_empty options in
      let* '(static_state, init_carry) :=
        init_carry fn args solver y0 options f_struct aux_struct tags in
      while_loop (cond_fun fn args solver options tags static_state)
                 (body_fun fn args solver options tags static_state)
                 init_carry max_steps (buffers_fun solver)
  | _ => raise PyError
  end.

(** Modelled from the spec: the loop executor that the adjoint hands to
    [_iterate] as [while_loop] ([equinox.internal.while_loop], reached
    through [_adjoint.py]; neither is among the sources).  Spec section 4.2,
    step 2: the loop is bounded by [max_steps], or unbounded if [max_steps]
    is absent; each round evaluates the condition, leaves with the current
    carry if it says stop, and otherwise runs the body.  [max_steps] is a
    non-negative Python int; [buffers] is a performance hint that changes no
    result.  An unbounded loop is followed for [fuel] rounds. *)
Fixpoint while_steps (cond : carry -> M bool) (body : carry -> M carry)
    (exhausted : carry -> M carry) (n : nat) (c : carry) : M carry :=
  match n with
  | O => exhausted c
  | S n' =>
      let* continue := cond c in
      if continue : bool then
        let* c' := body c in while_steps cond body exhausted n' c'
      else ret c
  end.

Definition while_loop (fuel : nat) : while_loop_t :=
  fun cond body init max_steps _ =>
    match max_steps with
    | Some m => while_steps cond body ret m init
    | None =>
        while_steps cond body
          (fun c => let* continue := cond c in
                    if continue : bool then raise StillRunning else ret c)
          fuel init
    end.

(** The result of the primal function [_iterate]. *)
Definition iterate_out : Type := pytree * (Z * RESULTS * pytree * pytree).

(** [rewrite_fn(root, residual, inputs)] *)
Definition rewrite_fn_t : Type := pytree -> pytree -> list pyval -> M pytree.

(** Modelled from the spec: the adjoints of [_adjoint.py], which is not
    among the sources.  Spec section 4.3: [apply] receives the forward
    computation, the rewrite function, the inputs and the tags, and "returns
    the same outputs as a direct call to the forward computation"; the
    strategies differ only in how a gradient is computed, which is outside
    this model. *)
Inductive AbstractAdjoint := ImplicitAdjoint | RecursiveCheckpointAdjoint.

Definition adjoint_apply (fuel : nat) (adjoint : AbstractAdjoint)
    (primal_fn : list pyval -> while_loop_t -> M iterate_out)
    (rewrite_fn : rewrite_fn_t) (inputs : list pyval) (tags : gset string) :
    M iterate_out :=
  primal_fn inputs (while_loop fuel).

(** Modelled from the spec: [Solution] of [_solution.py] (not among the
    sources), an immutable record of value, result, state, aux and the
    statistics map; [stats] maps ["num_steps"] to the counter and
    ["max_steps"] to the budget, [None] for none. *)
Record Solution := mk_Solution {
  value : pytree;
  result : RESULTS;
  state : pytree;
  aux : pytree;
  stats : gmap string (option Z)
}.

(** Modelled from the spec: [result.error_if(x, pred)] of [_solution.py]
    raises with the result code if [pred] holds and returns [x] otherwise
    (spec section 7: "a non-successful code [is] converted into a raised
    failure"). *)
Definition error_if {A} (r : RESULTS) (x : A) (pred : bool) : M A :=
  if pred then raise (Raised r) else ret x.

(** The tuple [inputs = fn, args, solver, y0, options, max_steps, f_struct,
    aux_struct, tags] of [iterative_solve]. *)
Definition pack_inputs (fn : Fn) (args : pytree)
    (solver : AbstractIterativeSolver) (y0 : pytree)
    (options : option (gmap string pytree)) (max_steps : option nat)
    (f_struct aux_struct : pytree) (tags : gset string) : list pyval :=
  [VFn fn; VTree args; VSolver solver; VTree y0; VOptions options;
   VMaxSteps max_steps; VTree f_struct; VTree aux_struct; VTags tags].

Definition iterative_solve (fuel : nat) (fn : Fn)
    (solver : AbstractIterativeSolver) (y0 args : pytree)
    (options : option (gmap string pytree)) (rewrite_fn : rewrite_fn_t)
    (max_steps : option nat) (adjoint : AbstractAdjoint) (throw : bool)
    (tags : gset string) (f_struct aux_struct : pytree) : M Solution :=
  let f_struct := tree_map Static f_struct in
  let aux_struct := tree_map Static aux_struct in
  let inputs :=
    pack_inputs fn args solver y0 options max_steps f_struct aux_struct tags in
  let* '(out, (num_steps, result, final_state, aux)) :=
    adjoint_apply fuel adjoint _iterate rewrite_fn inputs tags in
  let stats : gmap string (option Z) :=
    {[ "num_steps" := Some num_steps; "max_steps" := Z.of_nat <$> max_steps ]} in
  let sol := mk_Solution out result final_state aux stats in
  if throw then error_if result sol (bool_decide (result <> successful))
  else ret sol.

(** ** [_root_find.py] *)

(** Python's [a, b = t] *)
Definition unpack2 (t : pytree) : M (pytree * pytree) :=
  match t with
  | Node [a; b] => ret (a, b)
  | _ => raise PyError
  end.

Definition call_VFn (f : pyval) (y : pytree) (args : pyval) : M pytree :=
  match f, args with
  | VFn f, VTree a => let* _ := emit (call_fn y a) in ret (f y a)
  | _, _ => raise PyError
  end.

Definition _rewrite_fn : rewrite_fn_t :=
  fun root _ inputs =>
    match inputs with
    | root_fn :: _ :: _ :: args :: _ =>
        let* out := call_VFn root_fn root args in
        let* '(f_val, _) := unpack2 out in
        ret f_val
    | _ => raise PyError
    end.

(** Modelled from the spec: [NoneAux] of [_misc.py], which is not among the
    sources.  Spec section 4.4: "normalise [fn] to always return a (value,
    auxiliary) pair, synthesising an empty auxiliary value if the caller's
    function does not supply one". *)
Definition NoneAux (fn : Fn) : Fn :=
  fun y args => Node [fn y args; PNone].

(** [jtu.tree_map(f, t)] for an [f] that may raise. *)
Fixpoint tree_mapM (f : leaf -> option pytree) (t : pytree) : option pytree :=
  match t with
  | Leaf l => f l
  | PNone => Some PNone
  | Static v => Some (Static v)
  | Node ts => Node <$> mapM (tree_mapM f) ts
  end.

(** Modelled from the spec: [inexact_asarray] of [_misc.py], which is not
    among the sources.  Spec section 4.4: "coerce the initial guess to the
    solver's required numeric representation": a number or an array becomes
    an array of a floating point dtype with the same entries; nothing else
    converts to an array. *)
Definition inexact_dtype (dt : dtype) : dtype :=
  match dt with float64 => float64 | _ => float32 end.

Definition inexact_asarray (x : leaf) : option pytree :=
  match x with
  | Arr a => Some (Leaf (Arr (mk_array (shape a) (inexact_dtype (adtype a)) (data a))))
  | PyNum q => Some (Leaf (Arr (mk_array [] float32 [q])))
  | _ => None
  end.

(** Modelled from the spec: [max_norm] of [_misc.py], which is not among the
    sources.  Spec section 4.4 calls it "a max-norm": the largest absolute
    value of any entry of any leaf, [0] where there is no entry; a leaf that
    is not numeric has no absolute value. *)
Definition Qmax_list (l : list Q) : Q := foldr Qmax 0%Q l.

Definition leaf_norm (x : leaf) : option Q :=
  match x with
  | Arr a => Some (Qmax_list (Qabs <$> data a))
  | PyNum q => Some (Qabs q)
  | _ => None
  end.

Fixpoint tree_leaves (t : pytree) : list leaf :=
  match t with
  | Leaf l => [l]
  | PNone => []
  | Static _ => []
  | Node ts => concat (map tree_leaves ts)
  end.

Definition max_norm (x : pytree) : option Q :=
  Qmax_list <$> mapM leaf_norm (tree_leaves x).

(** [a > b] on the idealised floats *)
Definition Qgt_bool (a b : Q) : bool := negb (Qle_bool a b).

(** [eqx.filter_closure_convert(fn, y0, args)]: the function is traced once
    on the shapes of its arguments and keeps the shapes of its result as
    [out_struct]: arrays become [jax.ShapeDtypeStruct]s, other leaves stay.
    The converted function computes what [fn] computes. *)
Definition struct_of (x : leaf) : pytree :=
  match x with
  | Arr a => Leaf (ShapeDtypeStruct (shape a) (adtype a))
  | _ => Leaf x
  end.

Definition filter_closure_convert (fn : Fn) (y0 args : pytree) : Fn * pytree :=
  (fn, tree_map struct_of (fn y0 args)).

(** Modelled from the spec: [least_squares] of [_least_squares.py], which is
    not among the sources.  Spec section 4.4: "the least-squares /
    minimisation driver minimising [sum(fn(y,args)^2)]"; section 6: the
    iteration driver is the one generic entry point.  So: [fn] is given an
    auxiliary output when it has none, a minimiser is handed the sum of
    squares of the residual as its objective (a residual that has no square
    gives [None], which no caller can unpack), the shapes of the outputs are
    taken, and the driver is run.  The rewrite function of such a solve
    needs a gradient and is only used when differentiating; the forward pass
    never calls it. *)
Definition sum_squares (x : pytree) : option Q :=
  (fun norms => foldr Qplus 0%Q norms) <$>
  mapM (fun l => match l with
                 | Arr a => Some (foldr Qplus 0%Q ((fun q => q * q)%Q <$> data a))
                 | PyNum q => Some (q * q)%Q
                 | _ => None
                 end) (tree_leaves x).

Definition sum_squares_objective (fn : Fn) : Fn :=
  fun y args =>
    match fn y args with
    | Node [residual; aux] =>
        match sum_squares residual with
        | Some s => Node [Leaf (Arr (mk_array [] float32 [s])); aux]
        | None => PNone
        end
    | _ => PNone
    end.

Definition no_rewrite_fn : rewrite_fn_t := fun _ _ _ => raise PyError.

Definition least_squares (fuel : nat) (fn : Fn)
    (solver : AbstractIterativeSolver) (y0 args : pytree)
    (options : option (gmap string pytree)) (has_aux : bool)
    (max_steps : option nat) (adjoint : AbstractAdjoint) (throw : bool)
    (tags : gset string) : M Solution :=
  let fn := if has_aux then fn else NoneAux fn in
  let fn := match class_of solver with
            | AbstractMinimiser => sum_squares_objective fn
            | _ => fn
            end in
  let '(fn, out_struct) := filter_closure_convert fn y0 args in
  let* '(f_struct, aux_struct) := unpack2 out_struct in
  iterative_solve fuel fn solver y0 args options no_rewrite_fn max_steps
                  adjoint throw tags f_struct aux_struct.

(** [isinstance(solver, (AbstractMinimiser, AbstractLeastSquaresSolver))] *)
Definition is_minimiser_or_least_squares (solver : AbstractIterativeSolver) : bool :=
  match class_of solver with
  | AbstractMinimiser | AbstractLeastSquaresSolver => true
  | _ => false
  end.

Definition set_result (sol : Solution) (r : RESULTS) : Solution :=
  mk_Solution (value sol) r (state sol) (aux sol) (stats sol).

Definition root_find (fuel : nat) (fn : Fn) (solver : AbstractIterativeSolver)
    (y0 args : pytree) (options : option (gmap string pytree))
    (has_aux : bool) (max_steps : option nat) (adjoint : AbstractAdjoint)
    (throw : bool) (tags : gset string) : M Solution :=
  let fn := if negb has_aux then NoneAux fn else fn in
  if is_minimiser_or_least_squares solver then
    let* sol :=
      least_squares fuel fn solver y0 args options true max_steps adjoint
                    false ∅ in
    let* _ := emit (call_fn (value sol) args) in
    let f_val := fn (value sol) args in
    let* norm := of_option (max_norm f_val) in
    let did_not_find_root := Qgt_bool norm (1 # 10) in
    let result' :=
      RESULTS_where (did_not_find_root && bool_decide (result sol = successful))
                    nonlinear_root_conversion_failed (result sol) in
    let sol := set_result sol result' in
    if throw then
      error_if (result sol) sol (bool_decide (result sol <> successful))
    else ret sol
  else
    let* y0 := of_option (tree_mapM inexact_asarray y0) in
    let '(fn, out_struct) := filter_closure_convert fn y0 args in
    let* '(f_struct, aux_struct) := unpack2 out_struct in
    let options := Some (options_or_empty options) in
    iterative_solve fuel fn solver y0 args options _rewrite_fn max_steps
                    adjoint throw tags f_struct aux_struct.

(** The keyword arguments of [root_find]; [None] is a keyword the caller
    does not pass, for which the [def] line supplies the default. *)
Record root_find_keywords := mk_keywords {
  kw_has_aux : option bool;
  kw_max_steps : option (option nat);
  kw_adjoint : option AbstractAdjoint;
  kw_throw : option bool;
  kw_tags : option (gset string)
}.

Definition no_keywords : root_find_keywords :=
  mk_keywords None None None None None.

(** The values that the parameters after the [*] of the [def] line are
    bound to in a call. *)
Record root_find_parameters := mk_parameters {
  p_has_aux : bool;
  p_max_steps : option nat;
  p_adjoint : AbstractAdjoint;
  p_throw : bool;
  p_tags : gset string
}.

(** Python's binding of keyword arguments: a keyword that is passed is the
    value of its parameter, and one that is not passed gets the default
    written in the [def] line: [has_aux: bool = False],
    [max_steps: Optional[int] = 256],
    [adjoint: AbstractAdjoint = ImplicitAdjoint()], [throw: bool = True],
    [tags: frozenset[object] = frozenset()]. *)
Definition bind_keywords (kw : root_find_keywords) : root_find_parameters :=
  mk_parameters
    (default false (kw_has_aux kw))
    (default (Some 256%nat) (kw_max_steps kw))
    (default ImplicitAdjoint (kw_adjoint kw))
    (default true (kw_throw kw))
    (default ∅ (kw_tags kw)).

(** A call [root_find(fn, solver, y0, args, options, **kw)]; [args] and
    [options] default to [None]. *)
Definition call_root_find (fuel : nat) (fn : Fn)
    (solver : AbstractIterativeSolver) (y0 : pytree) (args : option pytree)
    (options : option (option (gmap string pytree)))
    (kw : root_find_keywords) : M Solution :=
  let p := bind_keywords kw in
  root_find fuel fn solver y0
    (default PNone args)
    (default None options)
    (p_has_aux p) (p_max_steps p) (p_adjoint p) (p_throw p) (p_tags p).

(** ** The spec's words, for comparison *)

(** Spec section 4.2, step 1: "numeric arrays become zero-filled,
    non-numeric leaves pass through unchanged".  [zero_filled t u]: [u] is
    [t] with every shape/dtype struct replaced by an array of that shape and
    dtype whose entries are all zero, and everything else as it was. *)
#[local] Unset Elimination Schemes.
Inductive zero_filled : pytree -> pytree -> Prop :=
| zero_filled_struct sh dt a :
    shape a = sh -> adtype a = dt ->
    length (data a) = foldr Nat.mul 1%nat sh ->
    Forall (fun q => q = 0%Q) (data a) ->
    zero_filled (Leaf (ShapeDtypeStruct sh dt)) (Leaf (Arr a))
| zero_filled_other l :
    (forall sh dt, l <> ShapeDtypeStruct sh dt) ->
    zero_filled (Leaf l) (Leaf l)
| zero_filled_none : zero_filled PNone PNone
| zero_filled_static v : zero_filled (Static v) (Static v)
| zero_filled_node ts us :
    Forall2 zero_filled ts us -> zero_filled (Node ts) (Node us).
#[local] Set Elimination Schemes.

(** ** Concrete solvers and problems

    Small instances of the solver contract, used to run the definitions. *)
Module Examples.

Definition scalar (q : Q) : pytree := Leaf (Arr (mk_array [] float32 [q])).

Definition scalar_value (t : pytree) : Q :=
  match t with
  | Leaf (Arr a) => match data a with [q] => q | _ => 0%Q end
  | Leaf (PyNum q) => q
  | _ => 0%Q
  end.

Definition residual_of (out : pytree) : Q :=
  match out with
  | Node [r; _] => scalar_value r
  | _ => 0%Q
  end.

(** [fn(y, args) = y - args], without auxiliary output. *)
Definition shifted : Fn :=
  fun y args => scalar (scalar_value y - scalar_value args)%Q.

(** A Newton iteration for functions of slope one: [y - fn(y)] is the
    root.  Its state holds the last residual (an array), a name (static)
    and a jaxpr; it stops when the residual is zero. *)
Definition newton_state (r : Q) : pytree :=
  Node [scalar r; Leaf (PyObj "newton"); Leaf (Jaxpr 0)].

Definition newton : AbstractIterativeSolver :=
  mk_solver AbstractRootFinder
    (fun fn y args _ _ _ _ => newton_state (residual_of (fn y args)))
    (fun fn y args _ _ _ =>
       let r := residual_of (fn y args) in
       let y' := scalar (scalar_value y - r)%Q in
       match fn y args with
       | Node [_; aux] => (y', newton_state (residual_of (fn y' args)), aux)
       | _ => (y', newton_state 0, PNone)
       end)
    (fun fn y args _ _ _ =>
       (Qeq_bool (residual_of (fn y args)) 0, successful))
    (fun _ => []).

(** A solver that walks to the right for ever and never reports
    anything. *)
Definition walker : AbstractIterativeSolver :=
  mk_solver AbstractRootFinder
    (fun _ _ _ _ _ _ _ => PNone)
    (fun _ y _ _ st _ => (scalar (scalar_value y + 1)%Q, st, PNone))
    (fun _ _ _ _ _ _ => (false, successful))
    (fun _ => []).

(** The same iteration, offered as a least-squares solver. *)
Definition gauss_newton : AbstractIterativeSolver :=
  mk_solver AbstractLeastSquaresSolver
    (init newton) (step newton) (terminate newton) (buffers newton).

(** [fn(y, args) = (y - args, 5.0)]: the residual and an auxiliary
    output. *)
Definition shifted_with_aux : Fn :=
  fun y args => Node [shifted y args; scalar 5].

(** A solver whose state holds a name and a jaxpr, and whose step comes
    back with a freshly traced jaxpr. *)
Definition retracer_state (id : nat) : pytree :=
  Node [Leaf (PyObj "retracer"); Leaf (Jaxpr id)].

Definition retracer : AbstractIterativeSolver :=
  mk_solver AbstractRootFinder
    (fun _ _ _ _ _ _ _ => retracer_state 0)
    (fun _ y _ _ _ _ => (y, retracer_state 1, PNone))
    (fun _ _ _ _ _ _ => (false, successful))
    (fun _ => []).

(** A solver whose step changes the name in its state. *)
Definition renamer : AbstractIterativeSolver :=
  mk_solver AbstractRootFinder
    (fun _ _ _ _ _ _ _ => Node [Leaf (PyObj "before")])
    (fun _ y _ _ _ _ => (y, Node [Leaf (PyObj "after")], PNone))
    (fun _ _ _ _ _ _ => (false, successful))
    (fun _ => []).

(** [walker], offered as a least-squares solver. *)
Definition least_squares_walker : AbstractIterativeSolver :=
  mk_solver AbstractLeastSquaresSolver
    (init walker) (step walker) (terminate walker) (buffers walker).

End Examples.

(** ** Runs of the loop *)

(** A tree in which every [eqxi.Static] has been opened. *)
Fixpoint unstatic (t : pytree) : pytree :=
  match t with
  | Static v => Leaf v
  | Node ts => Node (map unstatic ts)
  | _ => t
  end.

(** No [eqxi.Static] occurs in the tree. *)
Fixpoint static_free (t : pytree) : bool :=
  match t with
  | Static _ => false
  | Node ts => forallb static_free ts
  | _ => true
  end.

(** The two states agree in what [body_fun] compares: the part that is
    neither array nor jaxpr. *)
Definition same_static (s t : pytree) : Prop :=
  filter t _is_array_or_jaxpr true = filter s _is_array_or_jaxpr true.

(** The solver state that a logged call was made on. *)
Definition event_state (e : event) : option pytree :=
  match e with
  | call_terminate _ st | call_step _ st => Some st
  | _ => None
  end.

Definition is_call_step (e : event) : bool :=
  match e with call_step _ _ => true | _ => false end.

(** A logged call made on a state that agrees with [s0] in the compared
    part, or on no state at all. *)
Definition on_static (s0 : pytree) (e : event) : Prop :=
  forall st, event_state e = Some st -> same_static s0 st.

(** The carries that occur in a solve started from the state [s0]: their
    state is the array half of a state that agrees with [s0] in the
    compared part. *)
Definition reachable (s0 : pytree) (c : carry) : Prop :=
  exists t, c.1.2 = filter t is_array false /\ same_static s0 t.

Section Run.
Variables (fn : Fn) (args : pytree) (solver : AbstractIterativeSolver)
          (options : gmap string pytree) (tags : gset string)
          (static_state : pytree).

(** [run_from c visited c']: starting from the carry [c], the rounds of the
    loop visit the pairs (iterate, state) [visited], one after the other, and
    leave the carry [c'].  Each round is taken on an iterate on which
    [terminate] does not fire, passes the assertion, and hands the carry made
    from what [step] returned to the next round. *)
Inductive run_from : carry -> list (pytree * pytree) -> carry -> Prop :=
| run_done c : run_from c [] c
| run_round c st new_y new_state aux visited c' :
    combine static_state (c.1.2) = Some st ->
    (terminate solver fn (c.1.1.1) args options st tags).1 = false ->
    step solver fn (c.1.1.1) args options st tags = (new_y, new_state, aux) ->
    same_static st new_state ->
    run_from (new_y, jnp_add (c.1.1.2) 1, filter new_state is_array false, aux)
             visited c' ->
    run_from c ((c.1.1.1, st) :: visited) c'.
End Run.

(** * Properties *)

(** ** The call-log monad *)

Lemma bind_ret_l {A B} (a : A) (k : A -> M B) : bind (ret a) k = k a.
Proof. unfold bind, ret. destruct (k a); reflexivity. Qed.

Lemma bind_ret_r {A} (m : M A) : bind m ret = m.
Proof.
  destruct m as [l [a | e]]; simpl; [ | reflexivity].
  now rewrite app_nil_r.
Qed.

Lemma bind_assoc {A B C} (m : M A) (k : A -> M B) (h : B -> M C) :
  bind (bind m k) h = bind m (fun a => bind (k a) h).
Proof.
  destruct m as [l [a | e]]; simpl; [ | reflexivity].
  destruct (k a) as [l1 [b | e1]]; simpl; [ | reflexivity].
  destruct (h b) as [l2 r2]. now rewrite app_assoc.
Qed.

Lemma bind_ext {A B} (m : M A) (k k' : A -> M B) :
  (forall a, k a = k' a) -> bind m k = bind m k'.
Proof.
  intros H. destruct m as [l [a | e]]; simpl; [ | reflexivity].
  now rewrite H.
Qed.

Lemma bind_ok {A B} (m : M A) (k : A -> M B) l a l' r :
  m = (l, Ok a) -> k a = (l', r) -> bind m k = (l ++ l', r).
Proof. intros -> E. simpl. now rewrite E. Qed.

Lemma bind_fail {A B} (m : M A) (k : A -> M B) l e :
  m = (l, Fail e) -> bind m k = (l, Fail e).
Proof. now intros ->. Qed.

(** A computation that ended in a value did so through a value of its first
    part. *)
Lemma bind_inv_ok {A B} (m : M A) (k : A -> M B) l b :
  bind m k = (l, Ok b) ->
  exists l1 a l2, m = (l1, Ok a) /\ k a = (l2, Ok b) /\ l = l1 ++ l2.
Proof.
  destruct m as [l1 [a | e]]; simpl; [ | discriminate].
  destruct (k a) as [l2 r] eqn:E. intros [= <- ->].
  now exists l1, a, l2.
Qed.

Lemma bind_inv_fail {A B} (m : M A) (k : A -> M B) l e :
  bind m k = (l, Fail e) ->
  m = (l, Fail e) \/
  exists l1 a l2, m = (l1, Ok a) /\ k a = (l2, Fail e) /\ l = l1 ++ l2.
Proof.
  destruct m as [l1 [a | e1]]; simpl.
  - destruct (k a) as [l2 r] eqn:E. intros [= <- ->].
    right. now exists l1, a, l2.
  - intros [= <- <-]. now left.
Qed.

(** Case analysis on a sequence that failed ([bind_failed]) or that came
    back with a value ([bind_returned]): the hypothesis is left speaking
    about the second part, run on the value [a] of the first. *)
Tactic Notation "bind_failed" hyp(H) "as" simple_intropattern(a) :=
  apply bind_inv_fail in H as [H | (? & a & ? & _ & H & _)].
Tactic Notation "bind_returned" hyp(H) "as" simple_intropattern(a) :=
  apply bind_inv_ok in H as (? & a & ? & _ & H & _).

(** ** Equality of PyTrees *)

Lemma tree_equal_spec (a b : pytree) : tree_equal a b = true <-> a = b.
Proof.
  revert b. induction a as [x | | v | ts IH] using pytree_ind'; intros b.
  - destruct b; simpl; try (split; [discriminate | congruence]).
    rewrite bool_decide_eq_true. split; congruence.
  - destruct b; simpl; split; congruence.
  - destruct b; simpl; try (split; [discriminate | congruence]).
    rewrite bool_decide_eq_true. split; congruence.
  - destruct b as [ | | | us]; simpl; try (split; [discriminate | congruence]).
    revert us. induction IH as [ | x l Hx Hl IHl]; intros [ | y r]; simpl;
      try (split; [discriminate | congruence]).
    + split; congruence.
    + rewrite andb_true_iff, Hx, IHl. split.
      * intros [-> E]. congruence.
      * intros E. injection E as -> ->. auto.
Qed.

(** ** Arithmetic of the step counter *)

Lemma wrap_small (z : Z) : 0 <= z <= int_max -> wrap z = z.
Proof.
  unfold wrap, int_max, int_bits. intros H.
  rewrite Z.mod_small by lia. lia.
Qed.

Lemma wrap_add_l (a b : Z) : wrap (wrap a + b) = wrap (a + b).
Proof.
  unfold wrap. f_equal.
  replace ((a + 2 ^ (int_bits - 1)) mod 2 ^ int_bits - 2 ^ (int_bits - 1) + b
           + 2 ^ (int_bits - 1))
    with ((a + 2 ^ (int_bits - 1)) mod 2 ^ int_bits + b) by lia.
  rewrite Zplus_mod_idemp_l. f_equal. lia.
Qed.

Lemma wrap_le (z : Z) : 0 <= z -> wrap z <= z.
Proof.
  unfold wrap, int_bits. intros H.
  pose proof (Z.mod_le (z + 2 ^ (32 - 1)) (2 ^ 32)) as Hle.
  lia.
Qed.

(** ** Splitting and joining states *)

Lemma filter_filter_jaxpr (t : pytree) :
  filter (filter t is_array true) _is_jaxpr true = filter t _is_array_or_jaxpr true.
Proof.
  unfold filter.
  induction t as [x | | v | ts IH] using pytree_ind'; simpl; try reflexivity.
  - unfold filter_leaf, _is_array_or_jaxpr. destruct x; reflexivity.
  - f_equal. rewrite map_map. apply map_ext_Forall, IH.
Qed.

(** Joining the two halves of a partition gives the tree back. *)
Lemma combine_partition (t : pytree) :
  combine (filter t is_array true) (filter t is_array false) = Some t.
Proof.
  unfold filter.
  induction t as [x | | v | ts IH] using pytree_ind'; simpl; try reflexivity.
  - unfold filter_leaf. destruct x; reflexivity.
  - rewrite decide_True; reflexivity.
  - induction IH as [ | x l Hx Hl IHl]; simpl; [reflexivity | ].
    rewrite Hx. simpl in IHl.
    destruct (_ (map _ l) (map _ l)) as [zs | ] eqn:E in IHl |- *;
      simpl in *; congruence.
Qed.

(** ** One round of the loop *)

Definition carry_y (c : carry) : pytree := c.1.1.1.
Definition carry_num_steps (c : carry) : Z := c.1.1.2.
Definition carry_state (c : carry) : pytree := c.1.2.
Definition carry_aux (c : carry) : pytree := c.2.

(** The log of one round on iterate [y] and state [st]: [terminate], then
    [step], on the same pair. *)
Definition round (v : pytree * pytree) : list event :=
  [call_terminate v.1 v.2; call_step v.1 v.2].

Definition rounds (vs : list (pytree * pytree)) : list event :=
  concat (map round vs).

Section Loop.
Variables (fn : Fn) (args : pytree) (solver : AbstractIterativeSolver)
          (options : gmap string pytree) (tags : gset string)
          (static_state : pytree).

Let cond := cond_fun fn args solver options tags static_state.
Let body := body_fun fn args solver options tags static_state.
Let stops (y st : pytree) : bool :=
  (terminate solver fn y args options st tags).1.

Lemma cond_fun_eq (c : carry) :
  cond c =
  match combine static_state (carry_state c) with
  | Some st => ([call_terminate (carry_y c) st], Ok (negb (stops (carry_y c) st)))
  | None => ([], Fail PyError)
  end.
Proof.
  destruct c as [[[y n] dyn] a].
  unfold cond, cond_fun, stops, carry_state, carry_y; simpl.
  destruct (combine static_state dyn) as [st | ]; simpl; [ | reflexivity].
  destruct (terminate solver fn y args options st tags); reflexivity.
Qed.

Lemma body_fun_eq (c : carry) :
  body c =
  match combine static_state (carry_state c) with
  | Some st =>
      let '(new_y, new_state, aux) :=
        step solver fn (carry_y c) args options st tags in
      ([call_step (carry_y c) st],
       if tree_equal (filter st _is_array_or_jaxpr true)
                     (filter new_state _is_array_or_jaxpr true)
       then Ok (new_y, jnp_add (carry_num_steps c) 1,
                filter new_state is_array false, aux)
       else Fail AssertionError)
  | None => ([], Fail PyError)
  end.
Proof.
  destruct c as [[[y n] dyn] a].
  unfold body, body_fun, carry_state, carry_y, carry_num_steps; simpl.
  destruct (combine static_state dyn) as [st | ]; simpl; [ | reflexivity].
  destruct (step solver fn y args options st tags) as [[new_y new_state] aux].
  unfold partition. rewrite filter_filter_jaxpr.
  destruct (tree_equal _ _); reflexivity.
Qed.

(** What the loop may do when its rounds are used up: leave silently, or
    look at [terminate] once more and leave if it fires. *)
Definition exit_check (c : carry) (l : list event) : Prop :=
  l = [] \/
  exists st, combine static_state (carry_state c) = Some st /\
             l = [call_terminate (carry_y c) st] /\
             stops (carry_y c) st = true.

Variable exhausted : carry -> M carry.
Variable exhausted_failure : failure -> Prop.
Hypothesis exhausted_ok :
  forall c l c', exhausted c = (l, Ok c') -> c' = c /\ exit_check c l.
Hypothesis exhausted_fail :
  forall c l e, exhausted c = (l, Fail e) -> exhausted_failure e.

Lemma while_steps_ok (n : nat) : forall (c c' : carry) (l : list event),
  while_steps cond body exhausted n c = (l, Ok c') ->
  exists (visited : list (pytree * pytree)) (exit : list event),
    l = rounds visited ++ exit /\
    (length visited <= n)%nat /\
    carry_num_steps c' =
      Nat.iter (length visited) (fun z => jnp_add z 1) (carry_num_steps c) /\
    Forall (fun v => stops v.1 v.2 = false) visited /\
    exit_check c' exit /\
    (exit = [] -> length visited = n) /\
    (forall st, combine static_state (carry_state c) = Some st ->
                stops (carry_y c) st = true -> visited = [] /\ c' = c).
Proof.
  induction n as [ | n IH]; intros c c' l; simpl.
  - intros H. apply exhausted_ok in H as [-> Hx].
    exists [], l. repeat split; auto; try (simpl; lia).
  - rewrite cond_fun_eq.
    destruct (combine static_state (carry_state c)) as [st | ] eqn:Hst;
      [ | discriminate].
    simpl. destruct (stops (carry_y c) st) eqn:Hstop; simpl.
    + intros [= <- <-].
      exists [], [call_terminate (carry_y c) st].
      repeat split; auto; try (simpl; lia).
      * right. exists st. auto.
      * discriminate.
    + rewrite body_fun_eq, Hst.
      destruct (step solver fn (carry_y c) args options st tags)
        as [[new_y new_state] aux].
      destruct (tree_equal _ _); [ | discriminate]. simpl.
      destruct (while_steps _ _ _ n _) as [l1 [c1 | e]] eqn:Hloop;
        [ | discriminate].
      intros [= <- <-].
      apply IH in Hloop
        as (visited & exit & -> & Hlen & Hnum & Hall & Hexit & Hfull & _).
      exists ((carry_y c, st) :: visited), exit.
      split; [reflexivity | ].
      split; [simpl; lia | ].
      split; [rewrite Hnum; simpl length; now rewrite Nat.iter_succ_r | ].
      split; [constructor; auto | ].
      split; [assumption | ].
      split; [intros E; simpl; f_equal; auto | ].
      intros st' Hst' Hs. unfold carry_state, carry_y in *. simpl in *.
      congruence.
Qed.

Lemma while_steps_fail (n : nat) : forall (c : carry) (l : list event) e,
  while_steps cond body exhausted n c = (l, Fail e) ->
  e = AssertionError \/ e = PyError \/ exhausted_failure e.
Proof.
  induction n as [ | n IH]; intros c l e; simpl.
  - intros H. right; right. eapply exhausted_fail, H.
  - rewrite cond_fun_eq.
    destruct (combine static_state (carry_state c)) as [st | ] eqn:Hst;
      [ | intros [= <- <-]; auto].
    simpl. destruct (stops (carry_y c) st); simpl; [discriminate | ].
    rewrite body_fun_eq, Hst.
    destruct (step solver fn (carry_y c) args options st tags)
      as [[new_y new_state] aux].
    destruct (tree_equal _ _); simpl; [ | intros [= <- <-]; auto].
    destruct (while_steps _ _ _ n _) as [l1 [c1 | e1]] eqn:Hloop;
      [discriminate | ].
    intros [= <- <-]. eapply IH, Hloop.
Qed.
End Loop.

(** ** The loop executor *)

Lemma counter_after (k : nat) :
  Nat.iter k (fun z => jnp_add z 1) jnp_array_0 = wrap (Z.of_nat k).
Proof.
  induction k as [ | k IH]; [reflexivity | ].
  rewrite Nat.iter_succ, IH. unfold jnp_add.
  rewrite wrap_add_l. f_equal. lia.
Qed.

Section WhileLoop.
Variables (fn : Fn) (args : pytree) (solver : AbstractIterativeSolver)
          (options : gmap string pytree) (tags : gset string)
          (static_state : pytree) (fuel : nat).

Let cond := cond_fun fn args solver options tags static_state.
Let body := body_fun fn args solver options tags static_state.
Let stops (y st : pytree) : bool :=
  (terminate solver fn y args options st tags).1.

(** A loop that comes back has run whole rounds, at most [max_steps] of
    them, each on an iterate on which [terminate] did not fire; it counted
    them; and it left either because [terminate] fired or because the
    budget was used up. *)
Lemma while_loop_ok (max_steps : option nat) bufs (c c' : carry) l :
  while_loop fuel cond body c max_steps bufs = (l, Ok c') ->
  exists (visited : list (pytree * pytree)) (exit : list event),
    l = rounds visited ++ exit /\
    carry_num_steps c' =
      Nat.iter (length visited) (fun z => jnp_add z 1) (carry_num_steps c) /\
    Forall (fun v => stops v.1 v.2 = false) visited /\
    exit_check fn args solver options tags static_state c' exit /\
    match max_steps with
    | Some m => (length visited <= m)%nat /\ (exit = [] -> length visited = m)
    | None => True
    end /\
    (forall st, combine static_state (carry_state c) = Some st ->
                stops (carry_y c) st = true -> visited = [] /\ c' = c).
Proof.
  unfold while_loop. destruct max_steps as [m | ]; intros H.
  - eapply while_steps_ok in H
      as (visited & exit & -> & Hlen & Hnum & Hall & Hexit & Hfull & Hfirst).
    + exists visited, exit. auto 10.
    + intros c1 l1 c2 [= <- <-]. split; [reflexivity | now left].
  - eapply while_steps_ok in H
      as (visited & exit & -> & Hlen & Hnum & Hall & Hexit & Hfull & Hfirst).
    + exists visited, exit. auto 10.
    + intros c1 l1 c2. unfold cond. rewrite cond_fun_eq.
      destruct (combine static_state (carry_state c1)) as [st | ] eqn:Hst;
        [ | discriminate].
      simpl. destruct (terminate solver fn (carry_y c1) args options st tags).1
        eqn:Hstop; simpl; [ | discriminate].
      intros [= <- <-]. split; [reflexivity | ]. right. exists st. auto.
Qed.

(** A loop that does not come back was stopped by the assertion of
    [body_fun] or by a structure mismatch, or, when there is no budget, is
    still running. *)
Lemma while_loop_fail (max_steps : option nat) bufs (c : carry) l e :
  while_loop fuel cond body c max_steps bufs = (l, Fail e) ->
  e = AssertionError \/ e = PyError \/ (max_steps = None /\ e = StillRunning).
Proof.
  unfold while_loop. destruct max_steps as [m | ]; intros H.
  - eapply while_steps_fail with (exhausted_failure := fun _ => False) in H
      as [-> | [-> | []]]; auto.
    intros c1 l1 e1 [=].
  - eapply while_steps_fail
      with (exhausted_failure := fun e => e = PyError \/ e = StillRunning) in H
      as [-> | [-> | [-> | ->]]]; auto.
    intros c1 l1 e1. unfold cond. rewrite cond_fun_eq.
    destruct (combine static_state (carry_state c1)) as [st | ];
      [ | intros [= <- <-]; auto].
    simpl. destruct (terminate solver fn (carry_y c1) args options st tags).1;
      simpl; [discriminate | ].
    intros [= <- <-]. auto.
Qed.
End WhileLoop.

(** ** The driver [_iterate] *)

Section Driver.
Variables (fn : Fn) (args : pytree) (solver : AbstractIterativeSolver)
          (y0 : pytree) (options : option (gmap string pytree))
          (max_steps : option nat) (f_struct aux_struct : pytree)
          (tags : gset string).

Let inputs : list pyval :=
  pack_inputs fn args solver y0 options max_steps f_struct aux_struct tags.
Let opts := options_or_empty options.

Lemma init_carry_eq (fs as_ : pytree) :
  init_carry fn args solver y0 opts fs as_ tags =
  ([call_init y0 args],
   Ok (filter (init solver fn y0 args opts fs as_ tags) is_array true,
       (y0, jnp_array_0,
        filter (init solver fn y0 args opts fs as_ tags) is_array false,
        tree_map _zero as_))).
Proof. reflexivity. Qed.

(** [_iterate], one stage after the other. *)
Lemma iterate_unfold (while_loop : while_loop_t) :
  _iterate inputs while_loop =
  match static_values f_struct, static_values aux_struct with
  | Some fs, Some as_ =>
      let init_state := init solver fn y0 args opts fs as_ tags in
      let static_state := filter init_state is_array true in
      let c0 : carry :=
        (y0, jnp_array_0, filter init_state is_array false,
         tree_map _zero as_) in
      match while_loop (cond_fun fn args solver opts tags static_state)
                       (body_fun fn args solver opts tags static_state)
                       c0 max_steps (buffers_fun solver) with
      | (l, Ok cf) =>
          match combine static_state (carry_state cf) with
          | Some st =>
              let '(stop, r) :=
                terminate solver fn (carry_y cf) args opts st tags in
              (call_init y0 args :: l ++ [call_terminate (carry_y cf) st],
               Ok (carry_y cf,
                   (carry_num_steps cf, final_result stop r,
                    carry_state cf, carry_aux cf)))
          | None => (call_init y0 args :: l, Fail PyError)
          end
      | (l, Fail e) => (call_init y0 args :: l, Fail e)
      end
  | _, _ => ([], Fail PyError)
  end.
Proof.
  unfold inputs, pack_inputs, _iterate.
  destruct (static_values f_struct) as [fs | ]; [ | reflexivity].
  destruct (static_values aux_struct) as [as_ | ]; [ | reflexivity].
  cbn [of_option bind ret app]. fold opts.
  unfold init_carry. cbn [emit bind ret app partition].
  destruct (while_loop _ _ _ _ _) as [l [[[[yf n] stf] auxf] | e]];
    [ | reflexivity].
  unfold carry_state, carry_y, carry_num_steps, carry_aux.
  cbn [fst snd bind].
  destruct (combine _ stf) as [st | ]; cbn [of_option bind ret raise app];
    [ | now rewrite app_nil_r].
  destruct (terminate solver fn yf args opts st tags) as [stop r].
  reflexivity.
Qed.
End Driver.

Lemma final_result_cases (stop : bool) (r : RESULTS) :
  (r = successful -> stop = false ->
   final_result stop r = nonlinear_max_steps_reached) /\
  (~ (r = successful /\ stop = false) -> final_result stop r = r) /\
  (r <> successful -> final_result stop r = r) /\
  (final_result stop r <> r <-> r = successful /\ stop = false).
Proof.
  unfold final_result, RESULTS_where.
  destruct r, stop; simpl; repeat split; try congruence; try tauto;
    try (intros []; congruence).
Qed.

(** C1.  Whatever loop executor is used, once it has come back with the
    final carry, [_iterate] calls [terminate] once more, on that carry, and
    makes no further call.  The result code it returns is
    [nonlinear_max_steps_reached] if this last [terminate] answered
    [successful] without asking to stop, and the code of this last
    [terminate] in every other case; the code is changed exactly in the
    first case, so a code other than [successful] is never replaced. *)
Theorem iterate_final_result
    (while_loop : while_loop_t) (fn : Fn) (args : pytree)
    (solver : AbstractIterativeSolver) (y0 : pytree)
    (options : option (gmap string pytree)) (max_steps : option nat)
    (f_struct aux_struct : pytree) (tags : gset string)
    (fs as_ : pytree) (l : list event) (final_y : pytree) (num_steps : Z)
    (final_state aux st : pytree) (stop : bool) (r : RESULTS) :
  let opts := options_or_empty options in
  let init_state := init solver fn y0 args opts fs as_ tags in
  let static_state := filter init_state is_array true in
  static_values f_struct = Some fs ->
  static_values aux_struct = Some as_ ->
  while_loop (cond_fun fn args solver opts tags static_state)
             (body_fun fn args solver opts tags static_state)
             (y0, jnp_array_0, filter init_state is_array false,
              tree_map _zero as_)
             max_steps (buffers_fun solver)
    = (l, Ok (final_y, num_steps, final_state, aux)) ->
  combine static_state final_state = Some st ->
  terminate solver fn final_y args opts st tags = (stop, r) ->
  exists res : RESULTS,
    _iterate (pack_inputs fn args solver y0 options max_steps
                          f_struct aux_struct tags) while_loop
      = (call_init y0 args :: l ++ [call_terminate final_y st],
         Ok (final_y, (num_steps, res, final_state, aux))) /\
    (r = successful -> stop = false -> res = nonlinear_max_steps_reached) /\
    (~ (r = successful /\ stop = false) -> res = r) /\
    (r <> successful -> res = r) /\
    (res <> r <-> r = successful /\ stop = false).
Proof.
  intros opts init_state static_state Hfs Has Hloop Hst Hterm.
  exists (final_result stop r). split; [ | apply final_result_cases].
  rewrite iterate_unfold, Hfs, Has. cbv zeta.
  fold opts init_state static_state. rewrite Hloop.
  unfold carry_state, carry_y, carry_num_steps, carry_aux; cbn [fst snd].
  now rewrite Hst, Hterm.
Qed.

Lemma iterate_final_result_witness :
  exists (l : list event) (res : RESULTS),
    _iterate (pack_inputs Examples.shifted (Examples.scalar 5) Examples.walker
                (Examples.scalar 0) None (Some 2%nat) PNone PNone ∅)
             (while_loop 0)
      = (call_init (Examples.scalar 0) (Examples.scalar 5) :: l ++
           [call_terminate (Examples.scalar 2) PNone],
         Ok (Examples.scalar 2, (2, res, PNone, PNone))) /\
    (successful = successful -> false = false ->
     res = nonlinear_max_steps_reached) /\
    (~ (successful = successful /\ false = false) -> res = successful) /\
    (successful <> successful -> res = successful) /\
    (res <> successful <-> successful = successful /\ false = false).
Proof.
  eexists.
  eapply (iterate_final_result (while_loop 0) Examples.shifted (Examples.scalar 5)
            Examples.walker (Examples.scalar 0) None (Some 2%nat) PNone PNone ∅
            PNone PNone _ (Examples.scalar 2) 2 PNone PNone PNone false
            successful);
    vm_compute; reflexivity.
Defined.

(** C3.  A solve with the loop executor either is stopped (by the assertion,
    by a structure mismatch or, without a budget, by running on), or returns
    after the calls [init], then whole rounds [terminate; step] on the
    visited iterates (on each of which [terminate] did not fire), then the
    closing [terminate].  The counter it returns started at [0] and was
    incremented once per executed [step]: it is the number of rounds in the
    counter's integer type, and that number itself as long as it fits.  If
    [terminate] fires on the initial guess there is no round and the counter
    is [0].  With a budget, the number of rounds and the counter are at most
    [max_steps].  The result is [successful] only if the closing
    [terminate] fired on the final iterate. *)
Theorem iterate_step_counter
    (fuel : nat) (fn : Fn) (args : pytree) (solver : AbstractIterativeSolver)
    (y0 : pytree) (options : option (gmap string pytree))
    (max_steps : option nat) (f_struct aux_struct : pytree)
    (tags : gset string) :
  let opts := options_or_empty options in
  let stops (y st : pytree) := (terminate solver fn y args opts st tags).1 in
  match _iterate (pack_inputs fn args solver y0 options max_steps
                              f_struct aux_struct tags) (while_loop fuel) with
  | (l, Ok (final_y, (num_steps, res, final_state, aux))) =>
      exists (fs as_ : pytree) (visited : list (pytree * pytree))
             (exit : list event) (st : pytree),
        static_values f_struct = Some fs /\
        static_values aux_struct = Some as_ /\
        l = call_init y0 args :: rounds visited ++ exit ++
              [call_terminate final_y st] /\
        (exit = [] \/ exit = [call_terminate final_y st]) /\
        Forall (fun v => stops v.1 v.2 = false) visited /\
        num_steps = wrap (Z.of_nat (length visited)) /\
        (Z.of_nat (length visited) <= int_max ->
         num_steps = Z.of_nat (length visited)) /\
        (stops y0 (init solver fn y0 args opts fs as_ tags) = true ->
         visited = [] /\ num_steps = 0) /\
        match max_steps with
        | Some m => (length visited <= m)%nat /\ num_steps <= Z.of_nat m
        | None => True
        end /\
        (res = successful -> stops final_y st = true)
  | (l, Fail e) =>
      e = AssertionError \/ e = PyError \/
      (max_steps = None /\ e = StillRunning)
  end.
Proof.
  intros opts stops. rewrite iterate_unfold.
  destruct (static_values f_struct) as [fs | ]; [ | auto].
  destruct (static_values aux_struct) as [as_ | ]; [ | auto].
  cbv zeta. fold opts.
  set (init_state := init solver fn y0 args opts fs as_ tags).
  set (static_state := filter init_state is_array true).
  destruct (while_loop fuel _ _ _ _ _) as [l [cf | e]] eqn:Hloop.
  2: { eapply while_loop_fail, Hloop. }
  apply while_loop_ok in Hloop
    as (visited & exit & -> & Hnum & Hall & Hexit & Hbudget & Hfirst).
  destruct (combine static_state (carry_state cf)) as [st | ] eqn:Hst; [ | auto].
  destruct (terminate solver fn (carry_y cf) args opts st tags)
    as [stop r] eqn:Hterm.
  assert (Hwrap : carry_num_steps cf = wrap (Z.of_nat (length visited)))
    by (rewrite Hnum; apply counter_after).
  clear Hnum. rename Hwrap into Hnum. cbv beta iota.
  exists fs, as_, visited, exit, st.
  split; [reflexivity | ]. split; [reflexivity | ].
  split; [now rewrite <- app_assoc | ].
  split.
  { destruct Hexit as [-> | (st' & Hst' & -> & _)]; [now left | right].
    congruence. }
  split; [exact Hall | ].
  split; [exact Hnum | ].
  split; [intros Hfit; rewrite Hnum; apply wrap_small; lia | ].
  split.
  { intros Hfire.
    destruct (Hfirst init_state) as [-> Hc].
    - apply combine_partition.
    - exact Hfire.
    - split; [reflexivity | ]. rewrite Hnum. reflexivity. }
  split.
  { destruct max_steps as [m | ]; [ | exact I].
    destruct Hbudget as [Hle _]. split; [exact Hle | ].
    rewrite Hnum. etransitivity; [apply wrap_le | ]; lia. }
  intros Hres. unfold stops. rewrite Hterm. simpl.
  unfold final_result, RESULTS_where in Hres.
  destruct r, stop; simpl in Hres; congruence.
Qed.

(** ** The assertion of [body_fun] *)

(** C4, as stated, fails: the step of [retracer] is taken without the
    assertion firing, and the non-array part of the state it returns differs
    from the non-array part of the state it was given (the jaxpr in it has
    changed). *)
Lemma body_fun_static_part_counterexample :
  combine (partition (Examples.retracer_state 0) is_array).2
          (partition (Examples.retracer_state 0) is_array).1
    = Some (Examples.retracer_state 0) /\
  step Examples.retracer Examples.shifted (Examples.scalar 0)
       (Examples.scalar 5) ∅ (Examples.retracer_state 0) ∅
    = (Examples.scalar 0, Examples.retracer_state 1, PNone) /\
  body_fun Examples.shifted (Examples.scalar 5) Examples.retracer ∅ ∅
           (partition (Examples.retracer_state 0) is_array).2
           (Examples.scalar 0, 0,
            (partition (Examples.retracer_state 0) is_array).1, PNone)
    = ([call_step (Examples.scalar 0) (Examples.retracer_state 0)],
       Ok (Examples.scalar 0, 1,
           (partition (Examples.retracer_state 1) is_array).1, PNone)) /\
  (partition (Examples.retracer_state 1) is_array).2
    <> (partition (Examples.retracer_state 0) is_array).2.
Proof.
  split; [reflexivity | ]. split; [reflexivity | ].
  split; [reflexivity | ]. discriminate.
Qed.

(** C4, amended.  A step is taken exactly if the part of the state that is
    neither array nor jaxpr is the same after the step as before it: if it
    is, [body_fun] returns the new carry; if it is not, [body_fun] stops at
    the assertion.  So for every step taken the two parts are identical. *)
Theorem body_fun_static_check
    (fn : Fn) (args : pytree) (solver : AbstractIterativeSolver)
    (options : gmap string pytree) (tags : gset string)
    (static_state : pytree) (c : carry)
    (st new_y new_state aux : pytree) :
  combine static_state (carry_state c) = Some st ->
  step solver fn (carry_y c) args options st tags = (new_y, new_state, aux) ->
  (filter new_state _is_array_or_jaxpr true = filter st _is_array_or_jaxpr true ->
   body_fun fn args solver options tags static_state c
     = ([call_step (carry_y c) st],
        Ok (new_y, jnp_add (carry_num_steps c) 1,
            (partition new_state is_array).1, aux))) /\
  (filter new_state _is_array_or_jaxpr true <> filter st _is_array_or_jaxpr true ->
   body_fun fn args solver options tags static_state c
     = ([call_step (carry_y c) st], Fail AssertionError)) /\
  (forall l c',
     body_fun fn args solver options tags static_state c = (l, Ok c') ->
     filter new_state _is_array_or_jaxpr true
       = filter st _is_array_or_jaxpr true).
Proof.
  intros Hst Hstep. rewrite body_fun_eq, Hst, Hstep.
  destruct (tree_equal _ _) eqn:E.
  - apply tree_equal_spec in E. repeat split; congruence.
  - assert (filter st _is_array_or_jaxpr true
            <> filter new_state _is_array_or_jaxpr true) as Hne.
    { intros H. apply tree_equal_spec in H. congruence. }
    repeat split; congruence.
Qed.

Lemma body_fun_static_check_witness :
  (filter (Node [Leaf (PyObj "after")]) _is_array_or_jaxpr true
     = filter (Node [Leaf (PyObj "before")]) _is_array_or_jaxpr true ->
   body_fun Examples.shifted (Examples.scalar 5) Examples.renamer ∅ ∅
            (Node [Leaf (PyObj "before")])
            (Examples.scalar 0, 0, Node [PNone], PNone)
     = ([call_step (Examples.scalar 0) (Node [Leaf (PyObj "before")])],
        Ok (Examples.scalar 0, jnp_add 0 1,
            (partition (Node [Leaf (PyObj "after")]) is_array).1, PNone))) /\
  (filter (Node [Leaf (PyObj "after")]) _is_array_or_jaxpr true
     <> filter (Node [Leaf (PyObj "before")]) _is_array_or_jaxpr true ->
   body_fun Examples.shifted (Examples.scalar 5) Examples.renamer ∅ ∅
            (Node [Leaf (PyObj "before")])
            (Examples.scalar 0, 0, Node [PNone], PNone)
     = ([call_step (Examples.scalar 0) (Node [Leaf (PyObj "before")])],
        Fail AssertionError)) /\
  (forall l c',
     body_fun Examples.shifted (Examples.scalar 5) Examples.renamer ∅ ∅
              (Node [Leaf (PyObj "before")])
              (Examples.scalar 0, 0, Node [PNone], PNone) = (l, Ok c') ->
     filter (Node [Leaf (PyObj "after")]) _is_array_or_jaxpr true
       = filter (Node [Leaf (PyObj "before")]) _is_array_or_jaxpr true).
Proof.
  apply (body_fun_static_check Examples.shifted (Examples.scalar 5)
           Examples.renamer ∅ ∅ (Node [Leaf (PyObj "before")])
           (Examples.scalar 0, 0, Node [PNone], PNone)
           (Node [Leaf (PyObj "before")]) (Examples.scalar 0)
           (Node [Leaf (PyObj "after")]) PNone);
    reflexivity.
Defined.

(** ** The initial carry *)

Lemma tree_map_zero_filled (t : pytree) : zero_filled t (tree_map _zero t).
Proof.
  induction t as [x | | v | ts IH] using pytree_ind'; simpl.
  - destruct x; simpl;
      try (apply zero_filled_other; intros sh' dt'; discriminate).
    apply zero_filled_struct; simpl; auto.
    + apply repeat_length.
    + apply Forall_forall. intros q Hq.
      apply list_elem_of_In, repeat_spec in Hq. exact Hq.
  - constructor.
  - constructor.
  - constructor. induction IH; simpl; constructor; auto.
Qed.

(** C6.  Before the loop starts, [_iterate] builds the carry
    [(y0, 0, dynamic part of init's state, init_aux)], where [init_aux] is
    the aux metadata with every [ShapeDtypeStruct] leaf replaced by the
    zero-filled array of its shape and dtype and every other leaf unchanged;
    this carry is the one the loop executor is started on. *)
Theorem iterate_init_aux
    (fn : Fn) (args : pytree) (solver : AbstractIterativeSolver)
    (y0 : pytree) (options : option (gmap string pytree))
    (max_steps : option nat) (f_struct aux_struct : pytree)
    (tags : gset string) (fs as_ : pytree) :
  static_values f_struct = Some fs ->
  static_values aux_struct = Some as_ ->
  exists static_state dynamic_init_state init_aux : pytree,
    init_carry fn args solver y0 (options_or_empty options) fs as_ tags
      = ([call_init y0 args],
         Ok (static_state, (y0, 0, dynamic_init_state, init_aux))) /\
    init_aux = tree_map _zero as_ /\
    zero_filled as_ init_aux /\
    (forall sh dt, _zero (ShapeDtypeStruct sh dt) = Leaf (Arr (jnp_zeros sh dt))) /\
    (forall x, (forall sh dt, x <> ShapeDtypeStruct sh dt) -> _zero x = Leaf x) /\
    forall while_loop : while_loop_t,
      _iterate (pack_inputs fn args solver y0 options max_steps
                            f_struct aux_struct tags) while_loop
      = _iterate (pack_inputs fn args solver y0 options max_steps
                              f_struct aux_struct tags)
          (fun cond body _ max_steps bufs =>
             while_loop cond body (y0, 0, dynamic_init_state, init_aux)
                        max_steps bufs).
Proof.
  intros Hfs Has.
  eexists _, _, _. split; [apply init_carry_eq | ].
  split; [reflexivity | ].
  split; [apply tree_map_zero_filled | ].
  split; [reflexivity | ].
  split.
  { intros x Hx. destruct x; try reflexivity. now destruct (Hx sh dt). }
  intros while_loop. rewrite !iterate_unfold, Hfs, Has. reflexivity.
Qed.

Lemma iterate_init_aux_witness :
  exists static_state dynamic_init_state init_aux : pytree,
    init_carry (NoneAux Examples.shifted) (Examples.scalar 5) Examples.newton
               (Examples.scalar 0) (options_or_empty None)
               (Leaf (ShapeDtypeStruct [] float32))
               (Node [Leaf (ShapeDtypeStruct [2; 3]%nat int32);
                      Leaf (PyObj "label"); PNone]) ∅
      = ([call_init (Examples.scalar 0) (Examples.scalar 5)],
         Ok (static_state,
             (Examples.scalar 0, 0, dynamic_init_state, init_aux))) /\
    init_aux = tree_map _zero
                 (Node [Leaf (ShapeDtypeStruct [2; 3]%nat int32);
                        Leaf (PyObj "label"); PNone]) /\
    zero_filled (Node [Leaf (ShapeDtypeStruct [2; 3]%nat int32);
                       Leaf (PyObj "label"); PNone]) init_aux /\
    (forall sh dt, _zero (ShapeDtypeStruct sh dt) = Leaf (Arr (jnp_zeros sh dt))) /\
    (forall x, (forall sh dt, x <> ShapeDtypeStruct sh dt) -> _zero x = Leaf x) /\
    forall while_loop : while_loop_t,
      _iterate (pack_inputs (NoneAux Examples.shifted) (Examples.scalar 5)
                  Examples.newton (Examples.scalar 0) None (Some 50%nat)
                  (Static (ShapeDtypeStruct [] float32))
                  (Node [Static (ShapeDtypeStruct [2; 3]%nat int32);
                         Static (PyObj "label"); PNone]) ∅) while_loop
      = _iterate (pack_inputs (NoneAux Examples.shifted) (Examples.scalar 5)
                  Examples.newton (Examples.scalar 0) None (Some 50%nat)
                  (Static (ShapeDtypeStruct [] float32))
                  (Node [Static (ShapeDtypeStruct [2; 3]%nat int32);
                         Static (PyObj "label"); PNone]) ∅)
          (fun cond body _ max_steps bufs =>
             while_loop cond body
               (Examples.scalar 0, 0, dynamic_init_state, init_aux)
               max_steps bufs).
Proof.
  apply (iterate_init_aux (NoneAux Examples.shifted) (Examples.scalar 5)
           Examples.newton (Examples.scalar 0) None (Some 50%nat)
           (Static (ShapeDtypeStruct [] float32))
           (Node [Static (ShapeDtypeStruct [2; 3]%nat int32);
                  Static (PyObj "label"); PNone]) ∅
           (Leaf (ShapeDtypeStruct [] float32))
           (Node [Leaf (ShapeDtypeStruct [2; 3]%nat int32);
                  Leaf (PyObj "label"); PNone]));
    reflexivity.
Defined.

(** ** The rewrite function *)

(** On the tuple that [iterative_solve] builds, [_rewrite_fn] evaluates
    [fn] at the root and at the fourth member of the tuple, which is [y0]. *)
Lemma rewrite_fn_on_inputs
    (fn : Fn) (args : pytree) (solver : AbstractIterativeSolver)
    (y0 : pytree) (options : option (gmap string pytree))
    (max_steps : option nat) (f_struct aux_struct : pytree)
    (tags : gset string) (root residual : pytree) :
  _rewrite_fn root residual
    (pack_inputs fn args solver y0 options max_steps f_struct aux_struct tags)
  = let* _ := emit (call_fn root y0) in
    let* '(f_val, _) := unpack2 (fn root y0) in
    ret f_val.
Proof.
  unfold _rewrite_fn, pack_inputs, call_VFn. rewrite bind_assoc.
  apply bind_ext. intros _. now rewrite bind_ret_l.
Qed.

(** C7, at the failing input [fn(y, args) = y - args], [args = 5],
    [y0 = 0], [root = 5].  The value of [fn(root, args)] is [0]; the rewrite
    function, applied to the inputs of the solve, calls [fn(root, y0)] and
    returns [5]. *)
Theorem rewrite_fn_evaluates_at_y0 :
  NoneAux Examples.shifted (Examples.scalar 5) (Examples.scalar 5)
    = Node [Examples.scalar 0; PNone] /\
  _rewrite_fn (Examples.scalar 5) (Examples.scalar 0)
    (pack_inputs (NoneAux Examples.shifted) (Examples.scalar 5)
       Examples.newton (Examples.scalar 0) (Some ∅) (Some 256%nat)
       (Static (ShapeDtypeStruct [] float32)) PNone ∅)
  = ([call_fn (Examples.scalar 5) (Examples.scalar 0)],
     Ok (Examples.scalar 5)).
Proof. split; reflexivity. Qed.

(** ** The dispatch of [root_find] *)


(** C9.  With a minimiser or a least-squares solver, [root_find] returns
    the same log and the same Solution (or failure) whatever [tags] is. *)
Theorem root_find_tags_irrelevant
    (fuel : nat) (fn : Fn) (solver : AbstractIterativeSolver)
    (y0 args : pytree) (options : option (gmap string pytree))
    (has_aux : bool) (max_steps : option nat) (adjoint : AbstractAdjoint)
    (throw : bool) (tags1 tags2 : gset string) :
  is_minimiser_or_least_squares solver = true ->
  root_find fuel fn solver y0 args options has_aux max_steps adjoint throw tags1
  = root_find fuel fn solver y0 args options has_aux max_steps adjoint throw tags2.
Proof.
  intros H. unfold root_find. rewrite H. reflexivity.
Qed.

Lemma root_find_tags_irrelevant_witness :
  root_find 0 Examples.shifted Examples.gauss_newton (Examples.scalar 0)
            (Examples.scalar 5) None false (Some 256%nat) ImplicitAdjoint
            true ∅
  = root_find 0 Examples.shifted Examples.gauss_newton (Examples.scalar 0)
              (Examples.scalar 5) None false (Some 256%nat) ImplicitAdjoint
              true {[ "symmetric"%string ]}.
Proof.
  apply (root_find_tags_irrelevant 0 Examples.shifted Examples.gauss_newton
           (Examples.scalar 0) (Examples.scalar 5) None false (Some 256%nat)
           ImplicitAdjoint true ∅ {[ "symmetric"%string ]}).
  reflexivity.
Defined.

(** ** Missing options *)

Lemma iterate_options_none
    (while_loop : while_loop_t) (fn : Fn) (args : pytree)
    (solver : AbstractIterativeSolver) (y0 : pytree) (max_steps : option nat)
    (f_struct aux_struct : pytree) (tags : gset string) :
  _iterate (pack_inputs fn args solver y0 None max_steps
                        f_struct aux_struct tags) while_loop
  = _iterate (pack_inputs fn args solver y0 (Some ∅) max_steps
                          f_struct aux_struct tags) while_loop.
Proof. reflexivity. Qed.

Lemma iterative_solve_options_none
    (fuel : nat) (fn : Fn) (solver : AbstractIterativeSolver)
    (y0 args : pytree) (rewrite_fn : rewrite_fn_t) (max_steps : option nat)
    (adjoint : AbstractAdjoint) (throw : bool) (tags : gset string)
    (f_struct aux_struct : pytree) :
  iterative_solve fuel fn solver y0 args None rewrite_fn max_steps adjoint
                  throw tags f_struct aux_struct
  = iterative_solve fuel fn solver y0 args (Some ∅) rewrite_fn max_steps
                    adjoint throw tags f_struct aux_struct.
Proof. reflexivity. Qed.

(** C10.  [options=None] and [options={}] give the same log and the same
    outcome: for [_iterate] under any loop executor, for [iterative_solve],
    and for [root_find] with any solver. *)
Theorem options_none_is_empty :
  (forall (while_loop : while_loop_t) fn args solver y0 max_steps
          f_struct aux_struct tags,
     _iterate (pack_inputs fn args solver y0 None max_steps
                           f_struct aux_struct tags) while_loop
     = _iterate (pack_inputs fn args solver y0 (Some ∅) max_steps
                             f_struct aux_struct tags) while_loop) /\
  (forall fuel fn solver y0 args rewrite_fn max_steps adjoint throw tags
          f_struct aux_struct,
     iterative_solve fuel fn solver y0 args None rewrite_fn max_steps adjoint
                     throw tags f_struct aux_struct
     = iterative_solve fuel fn solver y0 args (Some ∅) rewrite_fn max_steps
                       adjoint throw tags f_struct aux_struct) /\
  (forall fuel fn solver y0 args has_aux max_steps adjoint throw tags,
     root_find fuel fn solver y0 args None has_aux max_steps adjoint throw tags
     = root_find fuel fn solver y0 args (Some ∅) has_aux max_steps adjoint
                 throw tags).
Proof.
  split; [exact iterate_options_none | ].
  split; [exact iterative_solve_options_none | ].
  intros. unfold root_find.
  destruct (is_minimiser_or_least_squares solver); [ | reflexivity].
  apply (f_equal (fun m => bind m _)).
  unfold least_squares.
  destruct (filter_closure_convert _ y0 args) as [fn' out_struct].
  apply bind_ext. intros [f_struct aux_struct].
  apply iterative_solve_options_none.
Qed.

(** ** [root_find] with a minimiser or least-squares solver *)

Lemma Qgt_bool_spec (a b : Q) : Qgt_bool a b = true <-> (b < a)%Q.
Proof.
  unfold Qgt_bool. rewrite negb_true_iff. split.
  - intros H. apply Qnot_le_lt. intros Hle.
    apply Qle_bool_iff in Hle. congruence.
  - intros H. destruct (Qle_bool a b) eqn:E; [ | reflexivity].
    apply Qle_bool_iff in E. exfalso. eapply Qlt_not_le; eauto.
Qed.

(** The branch of [root_find] for minimisers and least-squares solvers, one
    stage after the other. *)
Lemma root_find_least_squares
    (fuel : nat) (fn : Fn) (solver : AbstractIterativeSolver)
    (y0 args : pytree) (options : option (gmap string pytree))
    (has_aux : bool) (max_steps : option nat) (adjoint : AbstractAdjoint)
    (throw : bool) (tags : gset string) :
  is_minimiser_or_least_squares solver = true ->
  let fn' := if negb has_aux then NoneAux fn else fn in
  root_find fuel fn solver y0 args options has_aux max_steps adjoint throw tags
  = let* sol := least_squares fuel fn' solver y0 args options true max_steps
                              adjoint false ∅ in
    let* _ := emit (call_fn (value sol) args) in
    let* norm := of_option (max_norm (fn' (value sol) args)) in
    let r := RESULTS_where
               (Qgt_bool norm (1 # 10) && bool_decide (result sol = successful))
               nonlinear_root_conversion_failed (result sol) in
    if throw then error_if r (set_result sol r) (bool_decide (r <> successful))
    else ret (set_result sol r).
Proof.
  intros H fn'. unfold root_find. rewrite H. reflexivity.
Qed.

(** C2, at the failing input [fn(y, args) = (y - args, 5.0)] with
    [has_aux=True], [y0 = 0], [args = 5] and a least-squares solver.  The
    delegated solve ends at the root [5] with [successful]; the residual
    there is [0], of max-norm [0], which does not exceed [0.1]; yet
    [root_find] reports [nonlinear_root_conversion_failed], because the norm
    it takes is that of the pair (residual, aux), which is [5]. *)
Theorem root_find_norm_includes_aux :
  (exists l sol0,
     least_squares 0 Examples.shifted_with_aux Examples.gauss_newton
                   (Examples.scalar 0) (Examples.scalar 5) None true
                   (Some 256%nat) ImplicitAdjoint false ∅ = (l, Ok sol0) /\
     value sol0 = Examples.scalar 5 /\ result sol0 = successful) /\
  Examples.shifted_with_aux (Examples.scalar 5) (Examples.scalar 5)
    = Node [Examples.scalar 0; Examples.scalar 5] /\
  max_norm (Examples.scalar 0) = Some 0%Q /\
  Qgt_bool 0 (1 # 10) = false /\
  max_norm (Node [Examples.scalar 0; Examples.scalar 5]) = Some 5%Q /\
  exists l sol,
    root_find 0 Examples.shifted_with_aux Examples.gauss_newton
              (Examples.scalar 0) (Examples.scalar 5) None true
              (Some 256%nat) ImplicitAdjoint false ∅ = (l, Ok sol) /\
    value sol = Examples.scalar 5 /\
    result sol = nonlinear_root_conversion_failed.
Proof.
  split; [eexists _, _; split; [vm_compute; reflexivity | split; reflexivity] | ].
  split; [reflexivity | ]. split; [reflexivity | ].
  split; [reflexivity | ]. split; [reflexivity | ].
  eexists _, _. split; [vm_compute; reflexivity | split; reflexivity].
Qed.

(** ** Raising on failure *)





(** [throw] only decides what happens to the finished solution. *)
Lemma iterative_solve_throw
    (fuel : nat) (fn : Fn) (solver : AbstractIterativeSolver)
    (y0 args : pytree) (options : option (gmap string pytree))
    (rewrite_fn : rewrite_fn_t) (max_steps : option nat)
    (adjoint : AbstractAdjoint) (throw : bool) (tags : gset string)
    (f_struct aux_struct : pytree) :
  iterative_solve fuel fn solver y0 args options rewrite_fn max_steps adjoint
                  throw tags f_struct aux_struct
  = let* sol := iterative_solve fuel fn solver y0 args options rewrite_fn
                                max_steps adjoint false tags f_struct
                                aux_struct in
    if throw then
      error_if (result sol) sol (bool_decide (result sol <> successful))
    else ret sol.
Proof.
  unfold iterative_solve. rewrite bind_assoc. apply bind_ext.
  intros [out [[[num_steps res] final_state] aux]].
  now rewrite bind_ret_l.
Qed.










(** ** The definitions at work *)

(** [fn(y, args) = y - args] from [y0 = 0] with [args = 5] and at most 50
    steps: one step, the root [5], [successful]. *)
Example newton_finds_the_root :
  exists l sol,
    root_find 0 Examples.shifted Examples.newton (Examples.scalar 0)
              (Examples.scalar 5) None false (Some 50%nat) ImplicitAdjoint
              true ∅ = (l, Ok sol) /\
    value sol = Examples.scalar 5 /\ result sol = successful /\
    stats sol !! "num_steps" = Some (Some 1) /\
    stats sol !! "max_steps" = Some (Some 50).
Proof.
  eexists _, _. split; [vm_compute; reflexivity | ].
  repeat split; vm_compute; reflexivity.
Qed.

(** A solver whose [terminate] never fires uses up the budget: the counter
    equals [max_steps] and the result is [nonlinear_max_steps_reached],
    which [throw=True] turns into the raised failure. *)
Example walker_uses_up_the_budget :
  (exists l sol,
     root_find 0 Examples.shifted Examples.walker (Examples.scalar 0)
               (Examples.scalar 5) None false (Some 3%nat) ImplicitAdjoint
               false ∅ = (l, Ok sol) /\
     value sol = Examples.scalar 3 /\
     result sol = nonlinear_max_steps_reached /\
     stats sol !! "num_steps" = Some (Some 3)) /\
  (root_find 0 Examples.shifted Examples.walker (Examples.scalar 0)
             (Examples.scalar 5) None false (Some 3%nat) ImplicitAdjoint
             true ∅).2 = Fail (Raised nonlinear_max_steps_reached).
Proof.
  split; [ | vm_compute; reflexivity].
  eexists _, _. split; [vm_compute; reflexivity | ].
  repeat split; vm_compute; reflexivity.
Qed.

(** Without a budget the loop of a converging solver ends once it is
    followed long enough, and that of [walker] is still running however long
    it is followed. *)
Example unbounded_loops :
  (exists l sol,
     root_find 2 Examples.shifted Examples.newton (Examples.scalar 0)
               (Examples.scalar 5) None false None ImplicitAdjoint true ∅
       = (l, Ok sol) /\
     value sol = Examples.scalar 5 /\ result sol = successful) /\
  (root_find 7 Examples.shifted Examples.walker (Examples.scalar 0)
             (Examples.scalar 5) None false None ImplicitAdjoint true ∅).2
    = Fail StillRunning.
Proof.
  split; [ | vm_compute; reflexivity].
  eexists _, _. split; [vm_compute; reflexivity | ].
  split; reflexivity.
Qed.

(** A solver whose step changes a static leaf of its state is stopped by the
    assertion, whatever [throw] says. *)
Example renamer_is_stopped :
  root_find 0 Examples.shifted Examples.renamer (Examples.scalar 0)
            (Examples.scalar 5) None false (Some 50%nat) ImplicitAdjoint
            false ∅
  = ([call_init (Examples.scalar 0) (Examples.scalar 5);
      call_terminate (Examples.scalar 0) (Node [Leaf (PyObj "before")]);
      call_step (Examples.scalar 0) (Node [Leaf (PyObj "before")])],
     Fail AssertionError).
Proof. vm_compute. reflexivity. Qed.

(** * Further properties of the driver *)

(** ** Wrapping and unwrapping the output structs *)

Lemma static_values_wrap (t : pytree) :
  static_values (tree_map Static t) = Some (unstatic t).
Proof.
  induction t as [x | | v | ts IH] using pytree_ind'; simpl; try reflexivity.
  assert (mapM static_values (map (tree_map Static) ts) = Some (map unstatic ts))
    as ->; [ | reflexivity].
  induction IH as [ | x l Hx Hl IHl]; simpl; [reflexivity | ].
  rewrite Hx. simpl. rewrite IHl. reflexivity.
Qed.

Lemma unstatic_static_free (t : pytree) :
  static_free t = true -> unstatic t = t.
Proof.
  induction t as [x | | v | ts IH] using pytree_ind'; simpl;
    try reflexivity; try discriminate.
  intros H. f_equal. rewrite forallb_forall in H.
  induction IH as [ | x l Hx Hl IHl]; simpl; [reflexivity | ].
  rewrite Hx, IHl; auto.
  - intros y Hy. apply H. now right.
  - apply H. now left.
Qed.

(** ** The static part of the state during a solve *)

Lemma same_static_refl (s : pytree) : same_static s s.
Proof. reflexivity. Qed.

Lemma same_static_trans (s t u : pytree) :
  same_static s t -> same_static t u -> same_static s u.
Proof. unfold same_static. congruence. Qed.

(** What a tree can be when its compared part is a given leaf, [None] or
    [Static]. *)
Lemma filter_static_inv (t : pytree) :
  match filter t _is_array_or_jaxpr true with
  | Leaf x => t = Leaf x /\ _is_array_or_jaxpr x = false
  | PNone => t = PNone \/ exists x, t = Leaf x /\ _is_array_or_jaxpr x = true
  | Static v => t = Static v
  | Node us => exists ts, t = Node ts /\
                          us = map (fun u => filter u _is_array_or_jaxpr true) ts
  end.
Proof.
  unfold filter. destruct t as [x | | v | ts]; simpl; auto.
  - unfold filter_leaf. destruct (_is_array_or_jaxpr x) eqn:E; simpl.
    + right. exists x. auto.
    + auto.
  - exists ts. split; reflexivity.
Qed.

(** A state that agrees with [s0] in the compared part can be joined with
    the static half of [s0], and the joined state agrees with [s0] too. *)
Lemma combine_same_static (s0 : pytree) : forall t,
  same_static s0 t ->
  exists st, combine (filter s0 is_array true) (filter t is_array false) = Some st /\
             same_static s0 st.
Proof.
  unfold same_static.
  induction s0 as [x | | v | ts IH] using pytree_ind'; intros t H;
    pose proof (filter_static_inv t) as Ht; rewrite H in Ht;
    unfold filter in *; simpl in *; unfold filter_leaf in *.
  - destruct (_is_array_or_jaxpr x) eqn:E; simpl in *.
    + destruct Ht as [-> | (y & -> & Hy)];
        destruct x; try discriminate; simpl;
        try (destruct y; try discriminate; simpl);
        eexists; (split; [reflexivity | reflexivity]).
    + destruct Ht as [-> _].
      destruct x; try discriminate; simpl;
        eexists; (split; [reflexivity | reflexivity]).
  - destruct Ht as [-> | (y & -> & Hy)]; simpl;
      try (destruct y; try discriminate; simpl);
      eexists; (split; [reflexivity | reflexivity]).
  - subst t. simpl. rewrite decide_True by reflexivity.
    eexists; split; reflexivity.
  - destruct Ht as (us & -> & Hus). clear H. simpl.
    assert (exists zs,
              (fix go (l r : list pytree) : option (list pytree) :=
                 match l, r with
                 | [], [] => Some []
                 | x :: l', y :: r' =>
                     match combine x y, go l' r' with
                     | Some z, Some zs => Some (z :: zs)
                     | _, _ => None
                     end
                 | _, _ => None
                 end)
                (map (tree_map (fun l => if xorb (is_array l) true
                                         then Leaf l else PNone)) ts)
                (map (tree_map (fun l => if xorb (is_array l) false
                                         then Leaf l else PNone)) us)
              = Some zs /\
              map (tree_map (fun l => if xorb (_is_array_or_jaxpr l) true
                                      then Leaf l else PNone)) zs
              = map (tree_map (fun l => if xorb (_is_array_or_jaxpr l) true
                                        then Leaf l else PNone)) ts)
      as (zs & -> & Hzs).
    { revert us Hus. induction IH as [ | x l Hx Hl IHl]; intros [ | u us] Hus;
        simpl in Hus; try discriminate.
      - exists []. auto.
      - injection Hus as Hu Hus.
        destruct (Hx u) as (z & Hz & Hz'); [congruence | ].
        destruct (IHl us Hus) as (zs & Hzs & Hzs').
        exists (z :: zs). simpl.
        rewrite Hz, Hzs. split; [reflexivity | ].
        simpl. f_equal; assumption. }
    simpl. eexists. split; [reflexivity | ].
    simpl. f_equal. exact Hzs.
Qed.

Section Invariant.
Variables (fn : Fn) (args : pytree) (solver : AbstractIterativeSolver)
          (options : gmap string pytree) (tags : gset string)
          (s0 : pytree).

Let static_state := filter s0 is_array true.
Let cond := cond_fun fn args solver options tags static_state.
Let body := body_fun fn args solver options tags static_state.
Let stops (y st : pytree) : bool :=
  (terminate solver fn y args options st tags).1.

Lemma reachable_combine (c : carry) :
  reachable s0 c ->
  exists st, combine static_state (carry_state c) = Some st /\
             same_static s0 st.
Proof.
  intros (t & Hc & Ht). unfold carry_state. rewrite Hc.
  apply combine_same_static, Ht.
Qed.

(** One round from a reachable carry: either the assertion stops it, or it
    leaves a reachable carry, made from what [step] returned. *)
Lemma body_fun_reachable (c : carry) :
  reachable s0 c ->
  exists st, combine static_state (carry_state c) = Some st /\
             same_static s0 st /\
             let '(new_y, new_state, aux) :=
               step solver fn (carry_y c) args options st tags in
             (same_static st new_state /\
              reachable s0 (new_y, jnp_add (carry_num_steps c) 1,
                            filter new_state is_array false, aux) /\
              body c = ([call_step (carry_y c) st],
                        Ok (new_y, jnp_add (carry_num_steps c) 1,
                            filter new_state is_array false, aux))) \/
             (~ same_static st new_state /\
              body c = ([call_step (carry_y c) st], Fail AssertionError)).
Proof.
  intros Hc. destruct (reachable_combine c Hc) as (st & Hst & Hs).
  exists st. split; [exact Hst | ]. split; [exact Hs | ].
  unfold body. rewrite body_fun_eq. fold static_state. rewrite Hst.
  destruct (step solver fn (carry_y c) args options st tags)
    as [[new_y new_state] aux].
  destruct (tree_equal _ _) eqn:E.
  - apply tree_equal_spec in E. left.
    assert (same_static st new_state) as Hn by (unfold same_static; congruence).
    split; [exact Hn | ]. split; [ | reflexivity].
    exists new_state. split; [reflexivity | ].
    eapply same_static_trans; eauto.
  - right. split; [ | reflexivity].
    intros Hn. unfold same_static in Hn. symmetry in Hn.
    apply tree_equal_spec in Hn. congruence.
Qed.
End Invariant.

Section Trace.
Variables (fn : Fn) (args : pytree) (solver : AbstractIterativeSolver)
          (options : gmap string pytree) (tags : gset string)
          (s0 : pytree).

Let static_state := filter s0 is_array true.
Let cond := cond_fun fn args solver options tags static_state.
Let body := body_fun fn args solver options tags static_state.
Let stops (y st : pytree) : bool :=
  (terminate solver fn y args options st tags).1.

(** The loop left because [terminate] fired on the carry. *)
Definition fired (c : carry) (l : list event) : Prop :=
  exists st, combine static_state (carry_state c) = Some st /\
             l = [call_terminate (carry_y c) st] /\
             stops (carry_y c) st = true.

Variable exhausted : carry -> M carry.
Variable silent : carry -> list event -> Prop.
Variable exhausted_failure : failure -> Prop.
Hypothesis exhausted_spec :
  forall c, reachable s0 c ->
    match exhausted c with
    | (l, Ok c') => c' = c /\ Forall (on_static s0) l /\ silent c l
    | (l, Fail e) => exhausted_failure e /\ Forall (on_static s0) l
    end.

Lemma on_static_round (y st : pytree) :
  same_static s0 st -> Forall (on_static s0) (round (y, st)).
Proof.
  intros H. unfold round. repeat constructor; intros st' [= <-]; exact H.
Qed.

Lemma while_steps_run (n : nat) : forall c : carry,
  reachable s0 c ->
  match while_steps cond body exhausted n c with
  | (l, Ok c') =>
      exists (visited : list (pytree * pytree)) (exit : list event),
        l = rounds visited ++ exit /\
        run_from fn args solver options tags static_state c visited c' /\
        reachable s0 c' /\
        Forall (on_static s0) l /\
        (length visited <= n)%nat /\
        ((silent c' exit /\ length visited = n) \/ fired c' exit)
  | (l, Fail e) =>
      (e = AssertionError \/ exhausted_failure e) /\ Forall (on_static s0) l
  end.
Proof.
  induction n as [ | n IH]; intros c Hc; simpl.
  - specialize (exhausted_spec c Hc).
    destruct (exhausted c) as [l [c' | e]]; [ | exact (conj (or_intror (proj1 exhausted_spec)) (proj2 exhausted_spec))].
    destruct exhausted_spec as (-> & Hl & Hs).
    exists [], l. split; [reflexivity | ]. split; [constructor | ].
    split; [exact Hc | ]. split; [exact Hl | ]. split; [reflexivity | ].
    left. auto.
  - destruct (body_fun_reachable fn args solver options tags s0 c Hc)
      as (st & Hst & Hs & Hbody).
    fold static_state body in Hst, Hbody.
    unfold cond. rewrite cond_fun_eq, Hst.
    cbn [bind]. destruct (stops (carry_y c) st) eqn:Hstop; unfold stops in Hstop;
      rewrite Hstop; cbn [negb ret app].
    + exists [], [call_terminate (carry_y c) st].
      split; [reflexivity | ]. split; [constructor | ].
      split; [exact Hc | ].
      split; [repeat constructor; intros st' [= <-]; exact Hs | ].
      split; [simpl; lia | ]. right. exists st. auto.
    + destruct (step solver fn (carry_y c) args options st tags)
        as [[new_y new_state] aux] eqn:Hstep.
      fold body.
      destruct Hbody as [(Hn & Hc1 & ->) | (Hn & ->)]; cbn [bind].
      * specialize (IH _ Hc1). fold cond body in IH. fold cond.
        destruct (while_steps cond body exhausted n _) as [l1 [c' | e]];
          cbn [app].
        -- destruct IH as (visited & exit & -> & Hrun & Hc' & Hl & Hlen & Hexit).
           exists ((carry_y c, st) :: visited), exit.
           split; [reflexivity | ].
           split; [eapply run_round; eauto | ].
           split; [exact Hc' | ].
           split.
           { constructor; [intros st' [= <-]; exact Hs | ].
             constructor; [intros st' [= <-]; exact Hs | exact Hl]. }
           split; [simpl; lia | ].
           destruct Hexit as [[Hsil Hfull] | Hf]; [left | right; exact Hf].
           split; [exact Hsil | simpl; lia].
        -- destruct IH as (He & Hl). split; [exact He | ].
           constructor; [intros st' [= <-]; exact Hs | ].
           constructor; [intros st' [= <-]; exact Hs | exact Hl].
      * split; [now left | ].
        repeat constructor; intros st' [= <-]; exact Hs.
Qed.
End Trace.

(** A solve, from the first call to the last: what [_iterate] logs and
    returns when it is run with the loop executor on structs that unwrap. *)
Lemma iterate_run
    (fuel : nat) (fn : Fn) (args : pytree) (solver : AbstractIterativeSolver)
    (y0 : pytree) (options : option (gmap string pytree))
    (max_steps : option nat) (f_struct aux_struct : pytree)
    (tags : gset string) (fs as_ : pytree) :
  static_values f_struct = Some fs ->
  static_values aux_struct = Some as_ ->
  let opts := options_or_empty options in
  let s0 := init solver fn y0 args opts fs as_ tags in
  let static_state := filter s0 is_array true in
  let c0 : carry :=
    (y0, jnp_array_0, filter s0 is_array false, tree_map _zero as_) in
  match _iterate (pack_inputs fn args solver y0 options max_steps
                              f_struct aux_struct tags) (while_loop fuel) with
  | (l, Ok (final_y, (num_steps, res, final_state, aux))) =>
      exists (visited : list (pytree * pytree)) (exit : list event)
             (st : pytree),
        l = call_init y0 args :: rounds visited ++ exit ++
              [call_terminate final_y st] /\
        run_from fn args solver opts tags static_state c0 visited
                 (final_y, num_steps, final_state, aux) /\
        combine static_state final_state = Some st /\
        same_static s0 st /\
        Forall (on_static s0) l /\
        res = final_result (terminate solver fn final_y args opts st tags).1
                           (terminate solver fn final_y args opts st tags).2 /\
        ((exit = [] /\ max_steps = Some (length visited)) \/
         (exit = [call_terminate final_y st] /\
          (terminate solver fn final_y args opts st tags).1 = true /\
          match max_steps with
          | Some m => (length visited <= m)%nat
          | None => (length visited <= fuel)%nat
          end))
  | (l, Fail e) =>
      (e = AssertionError \/ (max_steps = None /\ e = StillRunning)) /\
      Forall (on_static s0) l
  end.
Proof.
  intros Hfs Has opts s0 static_state c0.
  rewrite iterate_unfold, Hfs, Has. cbv zeta.
  fold opts s0 static_state c0.
  assert (reachable s0 c0) as Hc0.
  { exists s0. split; [reflexivity | apply same_static_refl]. }
  assert (on_static s0 (call_init y0 args)) as Hinit by (intros st [=]).
  assert (match while_loop fuel
                  (cond_fun fn args solver opts tags static_state)
                  (body_fun fn args solver opts tags static_state)
                  c0 max_steps (buffers_fun solver) with
          | (l, Ok c') =>
              exists visited exit,
                l = rounds visited ++ exit /\
                run_from fn args solver opts tags static_state c0 visited c' /\
                reachable s0 c' /\ Forall (on_static s0) l /\
                ((exit = [] /\ max_steps = Some (length visited)) \/
                 (fired fn args solver opts tags s0 c' exit /\
                  match max_steps with
                  | Some m => (length visited <= m)%nat
                  | None => (length visited <= fuel)%nat
                  end))
          | (l, Fail e) =>
              (e = AssertionError \/ (max_steps = None /\ e = StillRunning)) /\
              Forall (on_static s0) l
          end) as Hloop.
  { unfold while_loop. destruct max_steps as [m | ].
    - pose proof (while_steps_run fn args solver opts tags s0 ret
                    (fun _ l => l = []) (fun _ => False)) as H.
      specialize (H ltac:(intros c _; simpl; auto) m c0 Hc0).
      fold static_state in H.
      destruct (while_steps _ _ _ m c0) as [l [c' | e]].
      + destruct H as (visited & exit & -> & Hrun & Hc' & Hl & Hlen & Hexit).
        exists visited, exit. repeat (split; [assumption || reflexivity | ]).
        destruct Hexit as [[-> <-] | Hf]; auto.
      + destruct H as ([-> | []] & Hl). auto.
    - set (exhausted := fun c : carry =>
             let* continue :=
               cond_fun fn args solver opts tags static_state c in
             if continue : bool then raise StillRunning else ret c).
      pose proof (while_steps_run fn args solver opts tags s0 exhausted
                    (fired fn args solver opts tags s0)
                    (fun e => e = StillRunning)) as H.
      assert (forall c, reachable s0 c ->
                match exhausted c with
                | (l, Ok c') => c' = c /\ Forall (on_static s0) l /\
                                fired fn args solver opts tags s0 c l
                | (l, Fail e) => e = StillRunning /\ Forall (on_static s0) l
                end) as Hex.
      { intros c Hc. unfold exhausted. rewrite cond_fun_eq.
        destruct (reachable_combine s0 c Hc) as (st & Hst & Hs).
        fold static_state in Hst. rewrite Hst. cbn [bind].
        assert (Forall (on_static s0) [call_terminate (carry_y c) st]) as Hl
          by (repeat constructor; intros st' [= <-]; exact Hs).
        destruct (terminate solver fn (carry_y c) args opts st tags).1 eqn:Hstop;
          cbn.
        - split; [reflexivity | ]. split; [exact Hl | ]. exists st. auto.
        - auto. }
      specialize (H Hex fuel c0 Hc0). fold static_state in H.
      destruct (while_steps _ _ _ fuel c0) as [l [c' | e]].
      + destruct H as (visited & exit & -> & Hrun & Hc' & Hl & Hlen & Hexit).
        exists visited, exit. repeat (split; [assumption || reflexivity | ]).
        right. split; [ | exact Hlen]. destruct Hexit as [[Hf _] | Hf]; exact Hf.
      + destruct H as ([-> | ->] & Hl); auto. }
  destruct (while_loop fuel _ _ c0 max_steps _) as [l [cf | e]].
  2: { destruct Hloop as [He Hl]. split; [exact He | ]. now constructor. }
  destruct Hloop as (visited & exit & -> & Hrun & Hcf & Hl & Hexit).
  destruct (reachable_combine s0 cf Hcf) as (st & Hst & Hs).
  fold static_state in Hst. rewrite Hst.
  destruct (terminate solver fn (carry_y cf) args opts st tags)
    as [stop r] eqn:Hterm.
  destruct cf as [[[yf n] stf] auxf].
  unfold carry_y, carry_num_steps, carry_state, carry_aux in *. cbn [fst snd] in *.
  exists visited, exit, st.
  split; [now rewrite <- app_assoc | ].
  split; [exact Hrun | ]. split; [exact Hst | ]. split; [exact Hs | ].
  split.
  { constructor; [exact Hinit | ]. apply Forall_app. split; [exact Hl | ].
    repeat constructor. intros st' [= <-]. exact Hs. }
  split; [now rewrite Hterm | ].
  rewrite Hterm. cbn [fst].
  destruct Hexit as [[-> ->] | [(st' & Hst' & -> & Hstop) Hlen]]; [now left | ].
  right. unfold carry_y, carry_state, static_state in *. cbn [fst snd] in *.
  assert (st' = st) as -> by congruence.
  rewrite Hterm in Hstop. cbn [fst] in Hstop. auto.
Qed.

(** ** Runs and logs *)

Section RunFacts.
Variables (fn : Fn) (args : pytree) (solver : AbstractIterativeSolver)
          (options : gmap string pytree) (tags : gset string)
          (static_state : pytree).

Let run := run_from fn args solver options tags static_state.

Lemma run_from_nil (c c' : carry) : run c [] c' -> c' = c.
Proof. inversion 1; reflexivity. Qed.

Lemma run_from_counter (c c' : carry) visited :
  run c visited c' ->
  carry_num_steps c' =
    Nat.iter (length visited) (fun z => jnp_add z 1) (carry_num_steps c).
Proof.
  induction 1 as [c | c st new_y new_state aux visited c' _ _ _ _ _ IH];
    [reflexivity | ].
  rewrite IH. simpl length. rewrite Nat.iter_succ_r. reflexivity.
Qed.

(** A run starts on the iterate and state of the carry it starts from. *)
Lemma run_from_first (c c' : carry) y st visited :
  run c ((y, st) :: visited) c' ->
  y = carry_y c /\ combine static_state (carry_state c) = Some st /\
  (terminate solver fn y args options st tags).1 = false.
Proof. inversion 1; subst. auto. Qed.

(** A run ends with what its last round's [step] returned. *)
Lemma run_from_last (c c' : carry) visited y st :
  run c (visited ++ [(y, st)]) c' ->
  exists new_state,
    step solver fn y args options st tags
      = (carry_y c', new_state, carry_aux c') /\
    carry_state c' = filter new_state is_array false /\
    same_static st new_state.
Proof.
  revert c. induction visited as [ | v visited IH]; intros c H; simpl in H.
  - inversion H as [ | c0 st0 new_y new_state aux vs c0' Hst Hstop Hstep Hs Hrest];
      subst.
    apply run_from_nil in Hrest. subst c'. exists new_state. auto.
  - inversion H; subst. eapply IH; eauto.
Qed.
End RunFacts.

Lemma steps_of_rounds (visited : list (pytree * pytree)) :
  List.filter is_call_step (rounds visited)
  = map (fun v => call_step v.1 v.2) visited.
Proof.
  induction visited as [ | v visited IH]; [reflexivity | ].
  unfold rounds in *. simpl. now rewrite IH.
Qed.

(** The [step] calls of a whole log, given its shape. *)
Lemma steps_of_log (y0 args final_y st : pytree) visited exit :
  exit = [] \/ exit = [call_terminate final_y st] ->
  List.filter is_call_step
    (call_init y0 args :: rounds visited ++ exit ++ [call_terminate final_y st])
  = map (fun v => call_step v.1 v.2) visited.
Proof.
  intros Hexit. simpl. rewrite List.filter_app, steps_of_rounds.
  destruct Hexit as [-> | ->]; simpl; now rewrite app_nil_r.
Qed.

(** ** A solve seen from [iterative_solve] *)

(** [iterative_solve] without raising: the log, the run and the Solution. *)
Lemma iterative_solve_run
    (fuel : nat) (fn : Fn) (solver : AbstractIterativeSolver)
    (y0 args : pytree) (options : option (gmap string pytree))
    (rewrite_fn : rewrite_fn_t) (max_steps : option nat)
    (adjoint : AbstractAdjoint) (tags : gset string)
    (f_struct aux_struct : pytree) :
  let opts := options_or_empty options in
  let s0 := init solver fn y0 args opts (unstatic f_struct)
                 (unstatic aux_struct) tags in
  let static_state := filter s0 is_array true in
  let c0 : carry :=
    (y0, jnp_array_0, filter s0 is_array false,
     tree_map _zero (unstatic aux_struct)) in
  match iterative_solve fuel fn solver y0 args options rewrite_fn max_steps
                        adjoint false tags f_struct aux_struct with
  | (l, Ok sol) =>
      exists (visited : list (pytree * pytree)) (exit : list event)
             (st : pytree) (num_steps : Z),
        l = call_init y0 args :: rounds visited ++ exit ++
              [call_terminate (value sol) st] /\
        run_from fn args solver opts tags static_state c0 visited
                 (value sol, num_steps, state sol, aux sol) /\
        combine static_state (state sol) = Some st /\
        same_static s0 st /\
        Forall (on_static s0) l /\
        result sol
          = final_result (terminate solver fn (value sol) args opts st tags).1
                         (terminate solver fn (value sol) args opts st tags).2 /\
        stats sol = {[ "num_steps" := Some num_steps;
                       "max_steps" := Z.of_nat <$> max_steps ]} /\
        ((exit = [] /\ max_steps = Some (length visited)) \/
         (exit = [call_terminate (value sol) st] /\
          (terminate solver fn (value sol) args opts st tags).1 = true /\
          match max_steps with
          | Some m => (length visited <= m)%nat
          | None => (length visited <= fuel)%nat
          end))
  | (l, Fail e) =>
      (e = AssertionError \/ (max_steps = None /\ e = StillRunning)) /\
      Forall (on_static s0) l
  end.
Proof.
  intros opts s0 static_state c0.
  pose proof (iterate_run fuel fn args solver y0 options max_steps
                (tree_map Static f_struct) (tree_map Static aux_struct) tags
                (unstatic f_struct) (unstatic aux_struct)
                (static_values_wrap f_struct) (static_values_wrap aux_struct))
    as H.
  cbv zeta in H. fold opts s0 static_state c0 in H.
  unfold iterative_solve, adjoint_apply.
  destruct (_iterate _ (while_loop fuel))
    as [l [[out [[[num_steps res] final_state] aux]] | e]]; cbn.
  - destruct H as (visited & exit & st & -> & Hrun & Hst & Hs & Hl & Hres & Hexit).
    exists visited, exit, st, num_steps. rewrite app_nil_r.
    repeat (split; [assumption || reflexivity | ]). exact Hexit.
  - exact H.
Qed.

(** A solve that returned with [throw] returned the same without. *)
Lemma iterative_solve_returned
    (fuel : nat) (fn : Fn) (solver : AbstractIterativeSolver)
    (y0 args : pytree) (options : option (gmap string pytree))
    (rewrite_fn : rewrite_fn_t) (max_steps : option nat)
    (adjoint : AbstractAdjoint) (throw : bool) (tags : gset string)
    (f_struct aux_struct : pytree) l sol :
  iterative_solve fuel fn solver y0 args options rewrite_fn max_steps adjoint
                  throw tags f_struct aux_struct = (l, Ok sol) ->
  iterative_solve fuel fn solver y0 args options rewrite_fn max_steps adjoint
                  false tags f_struct aux_struct = (l, Ok sol).
Proof.
  rewrite iterative_solve_throw. intros H.
  apply bind_inv_ok in H as (l1 & a & l2 & H1 & H2 & ->).
  rewrite H1. destruct throw.
  - unfold error_if in H2. destruct (bool_decide _); [discriminate | ].
    injection H2 as <- <-. now rewrite app_nil_r.
  - injection H2 as <- <-. now rewrite app_nil_r.
Qed.

(** X1.  [iterative_solve] fails in three ways only: the assertion of
    [body_fun] stopped a step; there is no budget and the loop is still
    running; or [throw] is set and the solve completed with a result other
    than [successful], which is the code raised.  In particular the wrapped
    output structs always unwrap and the static and array halves of the
    state always join. *)
Theorem iterative_solve_failures
    (fuel : nat) (fn : Fn) (solver : AbstractIterativeSolver)
    (y0 args : pytree) (options : option (gmap string pytree))
    (rewrite_fn : rewrite_fn_t) (max_steps : option nat)
    (adjoint : AbstractAdjoint) (throw : bool) (tags : gset string)
    (f_struct aux_struct : pytree) (l : list event) (e : failure) :
  iterative_solve fuel fn solver y0 args options rewrite_fn max_steps adjoint
                  throw tags f_struct aux_struct = (l, Fail e) ->
  e = AssertionError \/
  (max_steps = None /\ e = StillRunning) \/
  (throw = true /\
   exists sol,
     iterative_solve fuel fn solver y0 args options rewrite_fn max_steps
                     adjoint false tags f_struct aux_struct = (l, Ok sol) /\
     result sol <> successful /\ e = Raised (result sol)).
Proof.
  rewrite iterative_solve_throw. intros H.
  apply bind_inv_fail in H as [H | (l1 & sol & l2 & H1 & H2 & ->)].
  - pose proof (iterative_solve_run fuel fn solver y0 args options rewrite_fn
                  max_steps adjoint tags f_struct aux_struct) as Hrun.
    cbv zeta in Hrun. rewrite H in Hrun. destruct Hrun as [[-> | He] _]; auto.
  - destruct throw; [ | discriminate]. right; right. split; [reflexivity | ].
    exists sol. unfold error_if in H2.
    destruct (bool_decide (result sol <> successful)) eqn:E; [ | discriminate].
    apply bool_decide_eq_true in E. injection H2 as <- <-.
    rewrite app_nil_r. auto.
Qed.

Lemma iterative_solve_failures_witness :
  AssertionError = AssertionError \/
  (Some 50%nat = None /\ AssertionError = StillRunning) \/
  (true = true /\
   exists sol,
     iterative_solve 0 (NoneAux Examples.shifted) Examples.renamer
       (Examples.scalar 0) (Examples.scalar 5) None _rewrite_fn (Some 50%nat)
       ImplicitAdjoint false ∅ (Leaf (ShapeDtypeStruct [] float32)) PNone
     = ([call_init (Examples.scalar 0) (Examples.scalar 5);
         call_terminate (Examples.scalar 0) (Node [Leaf (PyObj "before")]);
         call_step (Examples.scalar 0) (Node [Leaf (PyObj "before")])],
        Ok sol) /\
     result sol <> successful /\ AssertionError = Raised (result sol)).
Proof.
  apply (iterative_solve_failures 0 (NoneAux Examples.shifted)
           Examples.renamer (Examples.scalar 0) (Examples.scalar 5) None
           _rewrite_fn (Some 50%nat) ImplicitAdjoint true ∅
           (Leaf (ShapeDtypeStruct [] float32)) PNone).
  vm_compute. reflexivity.
Defined.

(** X2.  Every call that [iterative_solve] makes to [terminate] and to
    [step] is made on a state whose part that is neither array nor jaxpr is
    that of the state [init] returned, however the solve ends. *)
Theorem iterative_solve_keeps_static
    (fuel : nat) (fn : Fn) (solver : AbstractIterativeSolver)
    (y0 args : pytree) (options : option (gmap string pytree))
    (rewrite_fn : rewrite_fn_t) (max_steps : option nat)
    (adjoint : AbstractAdjoint) (throw : bool) (tags : gset string)
    (f_struct aux_struct : pytree) :
  Forall (on_static (init solver fn y0 args (options_or_empty options)
                          (unstatic f_struct) (unstatic aux_struct) tags))
         (iterative_solve fuel fn solver y0 args options rewrite_fn max_steps
                          adjoint throw tags f_struct aux_struct).1.
Proof.
  pose proof (iterative_solve_run fuel fn solver y0 args options rewrite_fn
                max_steps adjoint tags f_struct aux_struct) as Hrun.
  cbv zeta in Hrun. rewrite iterative_solve_throw.
  destruct (iterative_solve _ _ _ _ _ _ _ _ _ false _ _ _) as [l [sol | e]];
    cbn [bind].
  - destruct Hrun as (visited & exit & st & n & _ & _ & _ & _ & Hl & _).
    destruct throw; [unfold error_if; destruct (bool_decide _) | ];
      cbn; rewrite app_nil_r; exact Hl.
  - exact (proj2 Hrun).
Qed.

(** X3.  The structs that [iterative_solve] wraps in [eqxi.Static] are what
    [_iterate] gets back when it unwraps them: the tree itself if it holds
    no [eqxi.Static] of its own, and in general the tree with those opened
    as well.  A leaf that is not wrapped does not unwrap. *)
Theorem static_round_trip (t : pytree) :
  static_values (tree_map Static t) = Some (unstatic t) /\
  (static_free t = true -> static_values (tree_map Static t) = Some t) /\
  (forall x, static_values (Leaf x) = None) /\
  (forall x, static_values (Node [Static x; Leaf x]) = None).
Proof.
  split; [apply static_values_wrap | ].
  split; [ | split; reflexivity].
  intros H. rewrite static_values_wrap. f_equal.
  apply unstatic_static_free, H.
Qed.

Lemma stats_num_steps (n : Z) (m : option Z) :
  ({[ "num_steps" := Some n; "max_steps" := m ]} : gmap string (option Z))
    !! "num_steps" = Some (Some n).
Proof. apply lookup_insert_eq. Qed.

Lemma stats_max_steps (n : Z) (m : option Z) :
  ({[ "num_steps" := Some n; "max_steps" := m ]} : gmap string (option Z))
    !! "max_steps" = Some m.
Proof.
  rewrite lookup_insert_ne by discriminate. apply lookup_singleton_eq.
Qed.

Lemma stats_other (n : Z) (m : option Z) (k : string) :
  k <> "num_steps" -> k <> "max_steps" ->
  ({[ "num_steps" := Some n; "max_steps" := m ]} : gmap string (option Z))
    !! k = None.
Proof.
  intros H1 H2. rewrite lookup_insert_ne by congruence.
  apply lookup_singleton_ne. congruence.
Qed.

(** X4.  When no round is executed, because [terminate] fires on the
    initial guess or because the budget is zero, [iterative_solve] returns
    the initial guess itself, the array part of the state [init] returned,
    the zero-filled placeholder for the aux (not an output of [fn]), a
    counter of [0], and the result code that [_iterate] makes of the answer
    of [terminate] on the initial guess; it never calls [step]. *)
Theorem solve_without_round
    (fuel : nat) (fn : Fn) (solver : AbstractIterativeSolver)
    (y0 args : pytree) (options : option (gmap string pytree))
    (rewrite_fn : rewrite_fn_t) (max_steps : option nat)
    (adjoint : AbstractAdjoint) (tags : gset string)
    (f_struct aux_struct : pytree) :
  let opts := options_or_empty options in
  let s0 := init solver fn y0 args opts (unstatic f_struct)
                 (unstatic aux_struct) tags in
  (terminate solver fn y0 args opts s0 tags).1 = true \/ max_steps = Some 0%nat ->
  exists l,
    iterative_solve fuel fn solver y0 args options rewrite_fn max_steps
                    adjoint false tags f_struct aux_struct
    = (l, Ok (mk_Solution y0
                (final_result (terminate solver fn y0 args opts s0 tags).1
                              (terminate solver fn y0 args opts s0 tags).2)
                (filter s0 is_array false)
                (tree_map _zero (unstatic aux_struct))
                {[ "num_steps" := Some 0; "max_steps" := Z.of_nat <$> max_steps ]})) /\
    List.filter is_call_step l = [].
Proof.
  intros opts s0 Hno.
  unfold iterative_solve, adjoint_apply.
  rewrite iterate_unfold, !static_values_wrap. cbv zeta. fold opts s0.
  set (static_state := filter s0 is_array true).
  set (c0 := (y0, jnp_array_0, filter s0 is_array false,
              tree_map _zero (unstatic aux_struct)) : carry).
  assert (combine static_state (carry_state c0) = Some s0) as Hst
    by apply combine_partition.
  assert (exists exit,
            while_loop fuel (cond_fun fn args solver opts tags static_state)
                       (body_fun fn args solver opts tags static_state)
                       c0 max_steps (buffers_fun solver) = (exit, Ok c0) /\
            List.filter is_call_step exit = []) as (exit & -> & Hexit).
  { assert (cond_fun fn args solver opts tags static_state c0
            = ([call_terminate y0 s0],
               Ok (negb (terminate solver fn y0 args opts s0 tags).1))) as Hcond
      by (rewrite cond_fun_eq, Hst; reflexivity).
    unfold while_loop.
    destruct max_steps as [[ | m] | ]; [exists []; split; reflexivity | | ];
      (destruct Hno as [Hstop | [=]]).
    - exists [call_terminate y0 s0]. split; [ | reflexivity].
      cbn [while_steps]. rewrite Hcond, Hstop. reflexivity.
    - exists [call_terminate y0 s0]. split; [ | reflexivity].
      destruct fuel; cbn [while_steps]; rewrite Hcond, Hstop; reflexivity. }
  rewrite Hst.
  destruct (terminate solver fn (carry_y c0) args opts s0 tags)
    as [stop r] eqn:Hterm.
  unfold carry_y, c0 in Hterm. cbn [fst] in Hterm. rewrite Hterm.
  cbn. eexists. split; [reflexivity | ].
  rewrite app_nil_r. simpl. rewrite List.filter_app, Hexit. reflexivity.
Qed.

Lemma solve_without_round_witness :
  exists l,
    iterative_solve 0 (NoneAux Examples.shifted) Examples.newton
      (Examples.scalar 5) (Examples.scalar 5) None _rewrite_fn (Some 50%nat)
      ImplicitAdjoint false ∅ (Leaf (ShapeDtypeStruct [] float32)) PNone
    = (l, Ok (mk_Solution (Examples.scalar 5) successful
                (Node [Examples.scalar 0; PNone; PNone]) PNone
                {[ "num_steps" := Some 0; "max_steps" := Some 50 ]})) /\
    List.filter is_call_step l = [].
Proof.
  apply (solve_without_round 0 (NoneAux Examples.shifted) Examples.newton
           (Examples.scalar 5) (Examples.scalar 5) None _rewrite_fn
           (Some 50%nat) ImplicitAdjoint ∅
           (Leaf (ShapeDtypeStruct [] float32)) PNone).
  left. reflexivity.
Defined.

(** The number of [step] calls in a log. *)
Lemma count_steps (y0 args final_y st : pytree) visited exit :
  exit = [] \/ exit = [call_terminate final_y st] ->
  length (List.filter is_call_step
            (call_init y0 args :: rounds visited ++ exit ++
               [call_terminate final_y st]))
  = length visited.
Proof.
  intros H. rewrite steps_of_log by exact H. apply length_map.
Qed.

(** X5.  The statistics of a returned Solution: [stats] has the two keys
    ["num_steps"] and ["max_steps"] and no other; ["max_steps"] is the
    budget as passed; ["num_steps"] is the number of [step] calls that were
    made (in the counter's integer type, and that number itself while it
    fits); with a budget, the number of [step] calls and ["num_steps"] are
    at most the budget. *)
Theorem solution_stats
    (fuel : nat) (fn : Fn) (solver : AbstractIterativeSolver)
    (y0 args : pytree) (options : option (gmap string pytree))
    (rewrite_fn : rewrite_fn_t) (max_steps : option nat)
    (adjoint : AbstractAdjoint) (throw : bool) (tags : gset string)
    (f_struct aux_struct : pytree) (l : list event) (sol : Solution) :
  iterative_solve fuel fn solver y0 args options rewrite_fn max_steps adjoint
                  throw tags f_struct aux_struct = (l, Ok sol) ->
  let steps := length (List.filter is_call_step l) in
  stats sol !! "num_steps" = Some (Some (wrap (Z.of_nat steps))) /\
  (Z.of_nat steps <= int_max ->
   stats sol !! "num_steps" = Some (Some (Z.of_nat steps))) /\
  stats sol !! "max_steps" = Some (Z.of_nat <$> max_steps) /\
  (forall k, k <> "num_steps" -> k <> "max_steps" -> stats sol !! k = None) /\
  match max_steps with
  | Some m => (steps <= m)%nat /\ wrap (Z.of_nat steps) <= Z.of_nat m
  | None => True
  end.
Proof.
  intros H steps. apply iterative_solve_returned in H.
  pose proof (iterative_solve_run fuel fn solver y0 args options rewrite_fn
                max_steps adjoint tags f_struct aux_struct) as Hrun.
  cbv zeta in Hrun. rewrite H in Hrun.
  destruct Hrun
    as (visited & exit & st & n & Hl & Hrun & _ & _ & _ & _ & Hstats & Hexit).
  assert (steps = length visited) as Hsteps.
  { unfold steps. rewrite Hl. apply count_steps.
    destruct Hexit as [[-> _] | [-> _]]; auto. }
  apply run_from_counter in Hrun.
  unfold carry_num_steps in Hrun. cbn [fst snd] in Hrun.
  assert (n = wrap (Z.of_nat steps)) as ->
    by (rewrite Hrun, Hsteps; apply counter_after).
  rewrite Hstats.
  split; [apply stats_num_steps | ].
  split; [intros Hfit; rewrite wrap_small by lia; apply stats_num_steps | ].
  split; [apply stats_max_steps | ].
  split; [intros k; apply stats_other | ].
  destruct max_steps as [m | ]; [ | exact I].
  assert (steps <= m)%nat as Hle.
  { rewrite Hsteps. destruct Hexit as [[_ [= ->]] | (_ & _ & Hle)]; lia. }
  split; [exact Hle | ].
  etransitivity; [apply wrap_le | ]; lia.
Qed.

Lemma solution_stats_witness :
  stats (mk_Solution (Examples.scalar 5) successful
           (Node [Examples.scalar 0; PNone; PNone]) PNone
           {[ "num_steps" := Some 1; "max_steps" := Some 50 ]})
    !! "num_steps" = Some (Some (wrap (Z.of_nat 1))) /\
  (Z.of_nat 1 <= int_max ->
   stats (mk_Solution (Examples.scalar 5) successful
            (Node [Examples.scalar 0; PNone; PNone]) PNone
            {[ "num_steps" := Some 1; "max_steps" := Some 50 ]})
     !! "num_steps" = Some (Some (Z.of_nat 1))) /\
  stats (mk_Solution (Examples.scalar 5) successful
           (Node [Examples.scalar 0; PNone; PNone]) PNone
           {[ "num_steps" := Some 1; "max_steps" := Some 50 ]})
    !! "max_steps" = Some (Z.of_nat <$> Some 50%nat) /\
  (forall k, k <> "num_steps" -> k <> "max_steps" ->
     stats (mk_Solution (Examples.scalar 5) successful
              (Node [Examples.scalar 0; PNone; PNone]) PNone
              {[ "num_steps" := Some 1; "max_steps" := Some 50 ]})
       !! k = None) /\
  ((1 <= 50)%nat /\ wrap (Z.of_nat 1) <= Z.of_nat 50).
Proof.
  apply (solution_stats 0 (NoneAux Examples.shifted) Examples.newton
           (Examples.scalar 0) (Examples.scalar 5) None _rewrite_fn
           (Some 50%nat) ImplicitAdjoint true ∅
           (Leaf (ShapeDtypeStruct [] float32)) PNone
           [call_init (Examples.scalar 0) (Examples.scalar 5);
            call_terminate (Examples.scalar 0) (Examples.newton_state (-5));
            call_step (Examples.scalar 0) (Examples.newton_state (-5));
            call_terminate (Examples.scalar 5) (Examples.newton_state 0);
            call_terminate (Examples.scalar 5) (Examples.newton_state 0)]).
  vm_compute. reflexivity.
Defined.

(** X6.  A solve with a budget whose closing [terminate] does not fire has
    used the budget up: it made exactly [max_steps] calls of [step], its
    counter is [max_steps], and its result is not [successful] (it is
    [nonlinear_max_steps_reached] if [terminate] answered [successful], and
    the answer of [terminate] otherwise).  A solve without a budget only
    returns once [terminate] has fired, and its result is the code
    [terminate] gave. *)
Theorem budget_used_up
    (fuel : nat) (fn : Fn) (solver : AbstractIterativeSolver)
    (y0 args : pytree) (options : option (gmap string pytree))
    (rewrite_fn : rewrite_fn_t) (max_steps : option nat)
    (adjoint : AbstractAdjoint) (tags : gset string)
    (f_struct aux_struct : pytree) (l : list event) (sol : Solution) :
  iterative_solve fuel fn solver y0 args options rewrite_fn max_steps adjoint
                  false tags f_struct aux_struct = (l, Ok sol) ->
  exists l' st,
    l = l' ++ [call_terminate (value sol) st] /\
    let answer :=
      terminate solver fn (value sol) args (options_or_empty options) st tags in
    (answer.1 = false ->
     max_steps = Some (length (List.filter is_call_step l)) /\
     stats sol !! "num_steps"
       = Some (Some (wrap (Z.of_nat (length (List.filter is_call_step l))))) /\
     result sol <> successful /\
     (answer.2 = successful -> result sol = nonlinear_max_steps_reached) /\
     (answer.2 <> successful -> result sol = answer.2)) /\
    (max_steps = None -> answer.1 = true /\ result sol = answer.2).
Proof.
  intros H.
  pose proof (iterative_solve_run fuel fn solver y0 args options rewrite_fn
                max_steps adjoint tags f_struct aux_struct) as Hsolve.
  cbv zeta in Hsolve. rewrite H in Hsolve.
  destruct Hsolve
    as (visited & exit & st & n & Hl & Hrun & _ & _ & _ & Hres & Hstats & Hexit).
  exists (call_init y0 args :: rounds visited ++ exit), st.
  split; [rewrite Hl; simpl; now rewrite <- app_assoc | ].
  cbv zeta.
  destruct (terminate solver fn (value sol) args (options_or_empty options)
                      st tags) as [stop r].
  cbn [fst snd] in *.
  assert (length (List.filter is_call_step l) = length visited) as Hsteps.
  { rewrite Hl. apply count_steps. destruct Hexit as [[-> _] | [-> _]]; auto. }
  split.
  - intros ->. destruct Hexit as [[_ ->] | (_ & [=] & _)].
    rewrite Hsteps. split; [reflexivity | ].
    apply run_from_counter in Hrun.
    unfold carry_num_steps in Hrun. cbn [fst snd] in Hrun.
    rewrite counter_after in Hrun. subst n.
    rewrite Hstats. split; [apply stats_num_steps | ].
    rewrite Hres. unfold final_result, RESULTS_where.
    destruct r; simpl; repeat split; congruence.
  - intros ->. destruct Hexit as [[_ [=]] | (_ & -> & _)].
    split; [reflexivity | ]. rewrite Hres.
    unfold final_result, RESULTS_where. simpl. now rewrite andb_false_r.
Qed.

Lemma budget_used_up_witness :
  let l :=
    [call_init (Examples.scalar 0) (Examples.scalar 5);
     call_terminate (Examples.scalar 0) PNone;
     call_step (Examples.scalar 0) PNone;
     call_terminate (Examples.scalar 1) PNone;
     call_step (Examples.scalar 1) PNone;
     call_terminate (Examples.scalar 2) PNone] in
  let sol :=
    mk_Solution (Examples.scalar 2) nonlinear_max_steps_reached PNone PNone
                {[ "num_steps" := Some 2; "max_steps" := Some 2 ]} in
  exists l' st,
    l = l' ++ [call_terminate (value sol) st] /\
    let answer :=
      terminate Examples.walker (NoneAux Examples.shifted) (value sol)
                (Examples.scalar 5) (options_or_empty None) st ∅ in
    (answer.1 = false ->
     Some 2%nat = Some (length (List.filter is_call_step l)) /\
     stats sol !! "num_steps"
       = Some (Some (wrap (Z.of_nat (length (List.filter is_call_step l))))) /\
     result sol <> successful /\
     (answer.2 = successful -> result sol = nonlinear_max_steps_reached) /\
     (answer.2 <> successful -> result sol = answer.2)) /\
    (Some 2%nat = None -> answer.1 = true /\ result sol = answer.2).
Proof.
  intros l sol.
  apply (budget_used_up 0 (NoneAux Examples.shifted) Examples.walker
           (Examples.scalar 0) (Examples.scalar 5) None _rewrite_fn
           (Some 2%nat) ImplicitAdjoint ∅
           (Leaf (ShapeDtypeStruct [] float32)) PNone l sol).
  vm_compute. reflexivity.
Defined.

(** X7.  The [step] calls of a solve that returns form one chain from the
    initial carry to the Solution: the first is made on the initial guess
    and the state of [init]; each further one on the iterate that the
    previous [step] returned and on the array part of the state it returned,
    joined with the static part of the state of [init]; the Solution holds
    what the chain ends with. *)
Theorem steps_are_chained
    (fuel : nat) (fn : Fn) (solver : AbstractIterativeSolver)
    (y0 args : pytree) (options : option (gmap string pytree))
    (rewrite_fn : rewrite_fn_t) (max_steps : option nat)
    (adjoint : AbstractAdjoint) (throw : bool) (tags : gset string)
    (f_struct aux_struct : pytree) (l : list event) (sol : Solution) :
  iterative_solve fuel fn solver y0 args options rewrite_fn max_steps adjoint
                  throw tags f_struct aux_struct = (l, Ok sol) ->
  let opts := options_or_empty options in
  let s0 := init solver fn y0 args opts (unstatic f_struct)
                 (unstatic aux_struct) tags in
  exists (visited : list (pytree * pytree)) (num_steps : Z),
    List.filter is_call_step l = map (fun v => call_step v.1 v.2) visited /\
    run_from fn args solver opts tags (partition s0 is_array).2
             (y0, 0, (partition s0 is_array).1,
              tree_map _zero (unstatic aux_struct))
             visited (value sol, num_steps, state sol, aux sol) /\
    (forall y st rest, visited = (y, st) :: rest -> y = y0 /\ st = s0).
Proof.
  intros H opts s0. apply iterative_solve_returned in H.
  pose proof (iterative_solve_run fuel fn solver y0 args options rewrite_fn
                max_steps adjoint tags f_struct aux_struct) as Hsolve.
  cbv zeta in Hsolve. rewrite H in Hsolve.
  destruct Hsolve
    as (visited & exit & st & n & Hl & Hrun & _ & _ & _ & _ & _ & Hexit).
  exists visited, n. split.
  { rewrite Hl. apply steps_of_log. destruct Hexit as [[-> _] | [-> _]]; auto. }
  split; [exact Hrun | ].
  intros y st' rest ->. apply run_from_first in Hrun as (-> & Hst & _).
  split; [reflexivity | ].
  unfold carry_state in Hst. cbn [fst snd] in Hst.
  fold opts s0 in Hst. rewrite combine_partition in Hst. congruence.
Qed.

Lemma steps_are_chained_witness :
  exists (visited : list (pytree * pytree)) (num_steps : Z),
    List.filter is_call_step
      [call_init (Examples.scalar 0) (Examples.scalar 5);
       call_terminate (Examples.scalar 0) PNone;
       call_step (Examples.scalar 0) PNone;
       call_terminate (Examples.scalar 1) PNone;
       call_step (Examples.scalar 1) PNone;
       call_terminate (Examples.scalar 2) PNone]
    = map (fun v => call_step v.1 v.2) visited /\
    run_from (NoneAux Examples.shifted) (Examples.scalar 5) Examples.walker
             (options_or_empty None) ∅ (partition PNone is_array).2
             (Examples.scalar 0, 0, (partition PNone is_array).1,
              tree_map _zero (unstatic PNone))
             visited (Examples.scalar 2, num_steps, PNone, PNone) /\
    (forall y st rest,
       visited = (y, st) :: rest -> y = Examples.scalar 0 /\ st = PNone).
Proof.
  apply (steps_are_chained 0 (NoneAux Examples.shifted) Examples.walker
           (Examples.scalar 0) (Examples.scalar 5) None _rewrite_fn
           (Some 2%nat) ImplicitAdjoint false ∅
           (Leaf (ShapeDtypeStruct [] float32)) PNone
           [call_init (Examples.scalar 0) (Examples.scalar 5);
            call_terminate (Examples.scalar 0) PNone;
            call_step (Examples.scalar 0) PNone;
            call_terminate (Examples.scalar 1) PNone;
            call_step (Examples.scalar 1) PNone;
            call_terminate (Examples.scalar 2) PNone]
           (mk_Solution (Examples.scalar 2) nonlinear_max_steps_reached PNone
              PNone {[ "num_steps" := Some 2; "max_steps" := Some 2 ]})).
  vm_compute. reflexivity.
Defined.

Lemma map_call_step_last (visited : list (pytree * pytree)) xs y st :
  map (fun v => call_step v.1 v.2) visited = xs ++ [call_step y st] ->
  exists vs, visited = vs ++ [(y, st)].
Proof.
  destruct visited as [ | v visited _] using rev_ind; simpl.
  - intros H. destruct xs; discriminate.
  - rewrite map_app. simpl. intros H.
    apply app_inj_tail in H as [_ H]. destruct v as [y' st'].
    injection H as -> ->. eauto.
Qed.

(** X8.  What a returned Solution holds is what the last executed [step]
    returned: [value] is its new iterate, [aux] its aux output, and [state]
    the array part of its new state. *)
Theorem solution_is_last_step
    (fuel : nat) (fn : Fn) (solver : AbstractIterativeSolver)
    (y0 args : pytree) (options : option (gmap string pytree))
    (rewrite_fn : rewrite_fn_t) (max_steps : option nat)
    (adjoint : AbstractAdjoint) (throw : bool) (tags : gset string)
    (f_struct aux_struct : pytree) (l l1 l2 : list event) (sol : Solution)
    (y st : pytree) :
  iterative_solve fuel fn solver y0 args options rewrite_fn max_steps adjoint
                  throw tags f_struct aux_struct = (l, Ok sol) ->
  l = l1 ++ call_step y st :: l2 ->
  List.filter is_call_step l2 = [] ->
  exists new_state,
    step solver fn y args (options_or_empty options) st tags
      = (value sol, new_state, aux sol) /\
    state sol = (partition new_state is_array).1.
Proof.
  intros H Hl Hl2. apply iterative_solve_returned in H.
  pose proof (iterative_solve_run fuel fn solver y0 args options rewrite_fn
                max_steps adjoint tags f_struct aux_struct) as Hsolve.
  cbv zeta in Hsolve. rewrite H in Hsolve.
  destruct Hsolve
    as (visited & exit & st' & n & Hl' & Hrun & _ & _ & _ & _ & _ & Hexit).
  assert (List.filter is_call_step l
          = map (fun v => call_step v.1 v.2) visited) as Hsteps.
  { rewrite Hl'. apply steps_of_log.
    destruct Hexit as [[-> _] | [-> _]]; auto. }
  rewrite Hl, List.filter_app in Hsteps. simpl in Hsteps.
  rewrite Hl2 in Hsteps. symmetry in Hsteps.
  apply map_call_step_last in Hsteps as [vs ->].
  apply run_from_last in Hrun as (new_state & Hstep & Hstate & _).
  exists new_state. auto.
Qed.

Lemma solution_is_last_step_witness :
  exists new_state,
    step Examples.newton (NoneAux Examples.shifted) (Examples.scalar 0)
         (Examples.scalar 5) (options_or_empty None)
         (Examples.newton_state (-5)) ∅
      = (Examples.scalar 5, new_state, PNone) /\
    Node [Examples.scalar 0; PNone; PNone] = (partition new_state is_array).1.
Proof.
  apply (solution_is_last_step 0 (NoneAux Examples.shifted) Examples.newton
           (Examples.scalar 0) (Examples.scalar 5) None _rewrite_fn
           (Some 50%nat) ImplicitAdjoint true ∅
           (Leaf (ShapeDtypeStruct [] float32)) PNone
           [call_init (Examples.scalar 0) (Examples.scalar 5);
            call_terminate (Examples.scalar 0) (Examples.newton_state (-5));
            call_step (Examples.scalar 0) (Examples.newton_state (-5));
            call_terminate (Examples.scalar 5) (Examples.newton_state 0);
            call_terminate (Examples.scalar 5) (Examples.newton_state 0)]
           [call_init (Examples.scalar 0) (Examples.scalar 5);
            call_terminate (Examples.scalar 0) (Examples.newton_state (-5))]
           [call_terminate (Examples.scalar 5) (Examples.newton_state 0);
            call_terminate (Examples.scalar 5) (Examples.newton_state 0)]
           (mk_Solution (Examples.scalar 5) successful
              (Node [Examples.scalar 0; PNone; PNone]) PNone
              {[ "num_steps" := Some 1; "max_steps" := Some 50 ]})
           (Examples.scalar 0) (Examples.newton_state (-5)));
    vm_compute; reflexivity.
Defined.

(** ** Solves under a larger budget *)

Section Replay.
Variables (fn : Fn) (args : pytree) (solver : AbstractIterativeSolver)
          (options : gmap string pytree) (tags : gset string)
          (static_state : pytree).

Let cond := cond_fun fn args solver options tags static_state.
Let body := body_fun fn args solver options tags static_state.

(** A run that ends where [terminate] fires is what the loop does under any
    budget that is not smaller than the run is long. *)
Lemma run_while_steps (exhausted : carry -> M carry) (c c' : carry) visited :
  run_from fn args solver options tags static_state c visited c' ->
  forall st',
    combine static_state (carry_state c') = Some st' ->
    (terminate solver fn (carry_y c') args options st' tags).1 = true ->
    (exists le, exhausted c' = (le, Ok c')) ->
    forall n, (length visited <= n)%nat ->
    exists l, while_steps cond body exhausted n c = (l, Ok c').
Proof.
  induction 1 as [c | c st new_y new_state aux visited c' Hst Hstop Hstep Hs _ IH];
    intros st' Hst' Hstop' Hex n Hn.
  - destruct n as [ | n]; [exact Hex | ].
    cbn [while_steps]. unfold cond. rewrite cond_fun_eq, Hst', Hstop'.
    eexists. reflexivity.
  - destruct n as [ | n]; [simpl in Hn; lia | ].
    destruct (IH st' Hst' Hstop' Hex n ltac:(simpl in Hn; lia)) as [l1 Hl1].
    cbn [while_steps]. unfold cond, body.
    rewrite cond_fun_eq. unfold carry_state, carry_y. rewrite Hst, Hstop.
    cbn [bind negb]. rewrite body_fun_eq.
    unfold carry_state, carry_y, carry_num_steps. rewrite Hst, Hstep.
    assert (tree_equal (filter st _is_array_or_jaxpr true)
                       (filter new_state _is_array_or_jaxpr true) = true) as ->
      by (apply tree_equal_spec; symmetry; exact Hs).
    cbn [bind]. fold cond body. rewrite Hl1. eexists. reflexivity.
Qed.
End Replay.

(** X9.  A solve that ended [successful] ends with the same value, result,
    state, aux and step count under any budget that is not smaller, and
    without a budget if the loop is followed at least as long. *)
Theorem larger_budget_same_solution
    (fuel fuel' : nat) (fn : Fn) (solver : AbstractIterativeSolver)
    (y0 args : pytree) (options : option (gmap string pytree))
    (rewrite_fn : rewrite_fn_t) (max_steps max_steps' : option nat)
    (adjoint : AbstractAdjoint) (tags : gset string)
    (f_struct aux_struct : pytree) (l : list event) (sol : Solution) :
  iterative_solve fuel fn solver y0 args options rewrite_fn max_steps adjoint
                  false tags f_struct aux_struct = (l, Ok sol) ->
  result sol = successful ->
  (default fuel max_steps <= default fuel' max_steps')%nat ->
  exists l' sol',
    iterative_solve fuel' fn solver y0 args options rewrite_fn max_steps'
                    adjoint false tags f_struct aux_struct = (l', Ok sol') /\
    value sol' = value sol /\ result sol' = result sol /\
    state sol' = state sol /\ aux sol' = aux sol /\
    stats sol' !! "num_steps" = stats sol !! "num_steps".
Proof.
  intros H Hres Hbudget.
  pose proof (iterative_solve_run fuel fn solver y0 args options rewrite_fn
                max_steps adjoint tags f_struct aux_struct) as Hsolve.
  cbv zeta in Hsolve. rewrite H in Hsolve.
  destruct Hsolve
    as (visited & exit & st & n & _ & Hrun & Hst & _ & _ & Hfinal & Hstats & Hexit).
  set (opts := options_or_empty options) in *.
  set (s0 := init solver fn y0 args opts (unstatic f_struct)
                  (unstatic aux_struct) tags) in *.
  destruct (terminate solver fn (value sol) args opts st tags)
    as [stop r] eqn:Hterm.
  cbn [fst snd] in *.
  assert (stop = true /\ r = successful) as [-> ->].
  { rewrite Hres in Hfinal. unfold final_result, RESULTS_where in Hfinal.
    destruct r, stop; simpl in Hfinal; auto; discriminate. }
  assert (length visited <= default fuel' max_steps')%nat as Hlen.
  { etransitivity; [ | exact Hbudget].
    destruct Hexit as [[_ ->] | (_ & _ & Hle)]; [reflexivity | ].
    destruct max_steps; exact Hle. }
  assert (exists l1,
            while_loop fuel'
              (cond_fun fn args solver opts tags (filter s0 is_array true))
              (body_fun fn args solver opts tags (filter s0 is_array true))
              (y0, jnp_array_0, filter s0 is_array false,
               tree_map _zero (unstatic aux_struct))
              max_steps' (buffers_fun solver)
            = (l1, Ok (value sol, n, state sol, aux sol))) as [l1 Hloop].
  { unfold while_loop. destruct max_steps' as [m' | ]; simpl in Hlen.
    - eapply run_while_steps; eauto.
      unfold carry_y. cbn [fst]. now rewrite Hterm.
    - eapply run_while_steps; eauto.
      + unfold carry_y. cbn [fst]. now rewrite Hterm.
      + rewrite cond_fun_eq. unfold carry_state, carry_y. cbn [fst snd].
        rewrite Hst, Hterm. eexists. reflexivity. }
  unfold iterative_solve, adjoint_apply.
  rewrite iterate_unfold, !static_values_wrap. cbv zeta.
  fold opts s0. rewrite Hloop.
  unfold carry_state, carry_y, carry_num_steps, carry_aux. cbn [fst snd].
  rewrite Hst, Hterm. cbn.
  eexists _, _. split; [reflexivity | ]. cbn.
  repeat (split; [reflexivity || (symmetry; assumption) | ]).
  rewrite Hstats, !stats_num_steps. reflexivity.
Qed.

Lemma larger_budget_same_solution_witness :
  let sol :=
    mk_Solution (Examples.scalar 5) successful
                (Node [Examples.scalar 0; PNone; PNone]) PNone
                {[ "num_steps" := Some 1; "max_steps" := Some 2 ]} in
  exists l' sol',
    iterative_solve 3 (NoneAux Examples.shifted) Examples.newton
      (Examples.scalar 0) (Examples.scalar 5) None _rewrite_fn None
      ImplicitAdjoint false ∅ (Leaf (ShapeDtypeStruct [] float32)) PNone
    = (l', Ok sol') /\
    value sol' = value sol /\ result sol' = result sol /\
    state sol' = state sol /\ aux sol' = aux sol /\
    stats sol' !! "num_steps" = stats sol !! "num_steps".
Proof.
  intros sol.
  apply (larger_budget_same_solution 0 3 (NoneAux Examples.shifted)
           Examples.newton (Examples.scalar 0) (Examples.scalar 5) None
           _rewrite_fn (Some 2%nat) None ImplicitAdjoint ∅
           (Leaf (ShapeDtypeStruct [] float32)) PNone
           [call_init (Examples.scalar 0) (Examples.scalar 5);
            call_terminate (Examples.scalar 0) (Examples.newton_state (-5));
            call_step (Examples.scalar 0) (Examples.newton_state (-5));
            call_terminate (Examples.scalar 5) (Examples.newton_state 0);
            call_terminate (Examples.scalar 5) (Examples.newton_state 0)]
           sol);
    [vm_compute; reflexivity | reflexivity | simpl; lia].
Defined.

(** ** Re-validation in [root_find] *)

Lemma set_result_same (sol : Solution) : set_result sol (result sol) = sol.
Proof. destruct sol. reflexivity. Qed.

(** X10.  With a minimiser or least-squares solver, a delegated solve that
    did not end [successful] is passed on untouched once the norm has been
    taken: with [throw=False] the Solution of the delegated solve is
    returned as it is, with [throw=True] its result code is raised. *)
Theorem root_find_keeps_failure
    (fuel : nat) (fn : Fn) (solver : AbstractIterativeSolver)
    (y0 args : pytree) (options : option (gmap string pytree))
    (has_aux : bool) (max_steps : option nat) (adjoint : AbstractAdjoint)
    (tags : gset string) (l : list event) (sol0 : Solution) (norm : Q) :
  let fn' := if has_aux then fn else NoneAux fn in
  is_minimiser_or_least_squares solver = true ->
  least_squares fuel fn' solver y0 args options true max_steps adjoint false ∅
    = (l, Ok sol0) ->
  max_norm (fn' (value sol0) args) = Some norm ->
  result sol0 <> successful ->
  root_find fuel fn solver y0 args options has_aux max_steps adjoint false tags
    = (l ++ [call_fn (value sol0) args], Ok sol0) /\
  root_find fuel fn solver y0 args options has_aux max_steps adjoint true tags
    = (l ++ [call_fn (value sol0) args], Fail (Raised (result sol0))).
Proof.
  intros fn' Hcls Hls Hnorm Hres.
  rewrite !root_find_least_squares by exact Hcls. cbv zeta.
  replace (if negb has_aux then NoneAux fn else fn) with fn'
    by (unfold fn'; now destruct has_aux).
  rewrite Hls. cbn [bind emit]. rewrite Hnorm. cbn [of_option bind ret].
  unfold RESULTS_where.
  rewrite (bool_decide_eq_false_2 (result sol0 = successful)) by exact Hres.
  rewrite andb_false_r, set_result_same. unfold error_if.
  rewrite bool_decide_eq_true_2 by exact Hres.
  cbn. auto.
Qed.

Lemma max_norm_NoneAux (fn : Fn) (y args : pytree) :
  max_norm (NoneAux fn y args) = max_norm (fn y args).
Proof.
  unfold max_norm, NoneAux. simpl. now rewrite !app_nil_r.
Qed.

(** X11.  With [has_aux=False] and a minimiser or least-squares solver, a
    [successful] delegated solve is checked against the residual alone: the
    result becomes [nonlinear_root_conversion_failed] exactly if the
    max-norm of [fn(value, args)] is greater than one tenth (a norm of
    exactly one tenth passes), and nothing else of the Solution changes. *)
Theorem root_find_checks_residual
    (fuel : nat) (fn : Fn) (solver : AbstractIterativeSolver)
    (y0 args : pytree) (options : option (gmap string pytree))
    (max_steps : option nat) (adjoint : AbstractAdjoint)
    (tags : gset string) (l : list event) (sol0 : Solution) (norm : Q) :
  is_minimiser_or_least_squares solver = true ->
  least_squares fuel (NoneAux fn) solver y0 args options true max_steps
                adjoint false ∅ = (l, Ok sol0) ->
  result sol0 = successful ->
  max_norm (fn (value sol0) args) = Some norm ->
  root_find fuel fn solver y0 args options false max_steps adjoint false tags
    = (l ++ [call_fn (value sol0) args],
       Ok (mk_Solution (value sol0)
             (if Qlt_le_dec (1 # 10) norm
              then nonlinear_root_conversion_failed else successful)
             (state sol0) (aux sol0) (stats sol0))) /\
  ((norm <= 1 # 10)%Q ->
   root_find fuel fn solver y0 args options false max_steps adjoint false tags
     = (l ++ [call_fn (value sol0) args], Ok sol0)).
Proof.
  intros Hcls Hls Hres Hnorm.
  assert (root_find fuel fn solver y0 args options false max_steps adjoint
                    false tags
          = (l ++ [call_fn (value sol0) args],
             Ok (mk_Solution (value sol0)
                   (if Qlt_le_dec (1 # 10) norm
                    then nonlinear_root_conversion_failed else successful)
                   (state sol0) (aux sol0) (stats sol0)))) as Hmain.
  { rewrite root_find_least_squares by exact Hcls. cbv zeta. cbn [negb].
    rewrite Hls. cbn [bind emit]. rewrite max_norm_NoneAux, Hnorm.
    cbn [of_option bind ret]. unfold RESULTS_where, set_result.
    rewrite Hres, bool_decide_eq_true_2, andb_true_r by reflexivity.
    cbn. rewrite ?app_nil_r. repeat f_equal.
    destruct (Qlt_le_dec (1 # 10) norm) as [Hn | Hn].
    - apply Qgt_bool_spec in Hn. now rewrite Hn.
    - destruct (Qgt_bool norm (1 # 10)) eqn:E; [ | reflexivity].
      apply Qgt_bool_spec in E. exfalso. eapply Qlt_not_le; eauto. }
  split; [exact Hmain | ].
  intros Hle. rewrite Hmain. repeat f_equal.
  destruct (Qlt_le_dec (1 # 10) norm) as [Hn | Hn].
  - exfalso. eapply Qlt_not_le; eauto.
  - rewrite <- Hres. destruct sol0; reflexivity.
Qed.

Lemma root_find_keeps_failure_witness :
  let l :=
    [call_init (Examples.scalar 0) (Examples.scalar 5);
     call_terminate (Examples.scalar 0) PNone;
     call_step (Examples.scalar 0) PNone;
     call_terminate (Examples.scalar 1) PNone;
     call_step (Examples.scalar 1) PNone;
     call_terminate (Examples.scalar 2) PNone] in
  let sol0 :=
    mk_Solution (Examples.scalar 2) nonlinear_max_steps_reached PNone PNone
                {[ "num_steps" := Some 2; "max_steps" := Some 2 ]} in
  root_find 0 Examples.shifted Examples.least_squares_walker
            (Examples.scalar 0) (Examples.scalar 5) None false (Some 2%nat)
            ImplicitAdjoint false ∅
    = (l ++ [call_fn (value sol0) (Examples.scalar 5)], Ok sol0) /\
  root_find 0 Examples.shifted Examples.least_squares_walker
            (Examples.scalar 0) (Examples.scalar 5) None false (Some 2%nat)
            ImplicitAdjoint true ∅
    = (l ++ [call_fn (value sol0) (Examples.scalar 5)],
       Fail (Raised (result sol0))).
Proof.
  intros l sol0.
  apply (root_find_keeps_failure 0 Examples.shifted
           Examples.least_squares_walker (Examples.scalar 0)
           (Examples.scalar 5) None false (Some 2%nat) ImplicitAdjoint ∅
           l sol0 3%Q);
    [reflexivity | vm_compute; reflexivity | reflexivity | discriminate].
Defined.

Lemma root_find_checks_residual_witness :
  let l :=
    [call_init (Examples.scalar 0) (Examples.scalar 5);
     call_terminate (Examples.scalar 0) (Examples.newton_state (-5));
     call_step (Examples.scalar 0) (Examples.newton_state (-5));
     call_terminate (Examples.scalar 5) (Examples.newton_state 0);
     call_terminate (Examples.scalar 5) (Examples.newton_state 0)] in
  let sol0 :=
    mk_Solution (Examples.scalar 5) successful
                (Node [Examples.scalar 0; PNone; PNone]) PNone
                {[ "num_steps" := Some 1; "max_steps" := Some 50 ]} in
  root_find 0 Examples.shifted Examples.gauss_newton (Examples.scalar 0)
            (Examples.scalar 5) None false (Some 50%nat) ImplicitAdjoint
            false ∅
    = (l ++ [call_fn (value sol0) (Examples.scalar 5)],
       Ok (mk_Solution (value sol0)
             (if Qlt_le_dec (1 # 10) 0
              then nonlinear_root_conversion_failed else successful)
             (state sol0) (aux sol0) (stats sol0))) /\
  ((0 <= 1 # 10)%Q ->
   root_find 0 Examples.shifted Examples.gauss_newton (Examples.scalar 0)
             (Examples.scalar 5) None false (Some 50%nat) ImplicitAdjoint
             false ∅
     = (l ++ [call_fn (value sol0) (Examples.scalar 5)], Ok sol0)).
Proof.
  intros l sol0.
  apply (root_find_checks_residual 0 Examples.shifted Examples.gauss_newton
           (Examples.scalar 0) (Examples.scalar 5) None (Some 50%nat)
           ImplicitAdjoint ∅ l sol0 0%Q);
    [reflexivity | vm_compute; reflexivity | reflexivity | reflexivity].
Defined.

(** ** The shape of the initial aux *)




(** ** Where the assertion fires *)

Section Assertion.
Variables (fn : Fn) (args : pytree) (solver : AbstractIterativeSolver)
          (options : gmap string pytree) (tags : gset string)
          (s0 : pytree).

Let static_state := filter s0 is_array true.
Let cond := cond_fun fn args solver options tags static_state.
Let body := body_fun fn args solver options tags static_state.

Variable exhausted : carry -> M carry.
Hypothesis exhausted_no_assertion :
  forall c l, exhausted c <> (l, Fail AssertionError).

(** A loop stopped by the assertion stops right after the [step] whose new
    state differs from the state it was given. *)
Lemma while_steps_assertion (n : nat) : forall (c : carry) (l : list event),
  reachable s0 c ->
  while_steps cond body exhausted n c = (l, Fail AssertionError) ->
  exists l' y st,
    l = l' ++ [call_step y st] /\
    ~ same_static st (step solver fn y args options st tags).1.2.
Proof.
  induction n as [ | n IH]; intros c l Hc; cbn [while_steps].
  - intros H. now apply exhausted_no_assertion in H.
  - destruct (body_fun_reachable fn args solver options tags s0 c Hc)
      as (st & Hst & Hs & Hbody).
    fold static_state body in Hst, Hbody.
    unfold cond. rewrite cond_fun_eq, Hst. cbn [bind].
    destruct (terminate solver fn (carry_y c) args options st tags).1;
      cbn [negb ret app]; [discriminate | ].
    destruct (step solver fn (carry_y c) args options st tags)
      as [[new_y new_state] aux] eqn:Hstep.
    destruct Hbody as [(Hn & Hc1 & ->) | (Hn & ->)]; cbn [bind].
    + fold cond.
      destruct (while_steps cond body exhausted n _) as [l1 [c' | e]] eqn:Hloop;
        [discriminate | ].
      intros [= <- ->].
      apply IH in Hloop as (l' & y & st' & -> & Hne); [ | exact Hc1].
      exists (call_terminate (carry_y c) st :: call_step (carry_y c) st :: l'),
             y, st'.
      split; [reflexivity | exact Hne].
    + intros [= <-].
      exists [call_terminate (carry_y c) st], (carry_y c), st.
      split; [reflexivity | ]. now rewrite Hstep.
Qed.
End Assertion.

(** X13.  When [iterative_solve] is stopped by the assertion, whatever
    [throw] is, the last call it made is a [step], and the state that this
    [step] returned differs from the state it was given in the part that is
    neither array nor jaxpr. *)
Theorem assertion_names_the_step
    (fuel : nat) (fn : Fn) (solver : AbstractIterativeSolver)
    (y0 args : pytree) (options : option (gmap string pytree))
    (rewrite_fn : rewrite_fn_t) (max_steps : option nat)
    (adjoint : AbstractAdjoint) (throw : bool) (tags : gset string)
    (f_struct aux_struct : pytree) (l : list event) :
  iterative_solve fuel fn solver y0 args options rewrite_fn max_steps adjoint
                  throw tags f_struct aux_struct = (l, Fail AssertionError) ->
  exists l' y st,
    l = l' ++ [call_step y st] /\
    filter (step solver fn y args (options_or_empty options) st tags).1.2
           _is_array_or_jaxpr true
    <> filter st _is_array_or_jaxpr true.
Proof.
  rewrite iterative_solve_throw. intros H.
  apply bind_inv_fail in H as [H | (l1 & sol & l2 & _ & H & _)].
  2: { destruct throw; [ | discriminate]. unfold error_if in H.
       destruct (bool_decide _); discriminate. }
  unfold iterative_solve, adjoint_apply in H.
  apply bind_inv_fail in H as [H | (l1 & out & l2 & _ & H & _)].
  2: { destruct out as [out [[[n res] stf] aux]]. discriminate. }
  rewrite iterate_unfold, !static_values_wrap in H. cbv zeta in H.
  set (opts := options_or_empty options) in *.
  set (s0 := init solver fn y0 args opts (unstatic f_struct)
                  (unstatic aux_struct) tags) in *.
  set (c0 := (y0, jnp_array_0, filter s0 is_array false,
              tree_map _zero (unstatic aux_struct)) : carry) in *.
  assert (reachable s0 c0) as Hc0.
  { exists s0. split; [reflexivity | apply same_static_refl]. }
  destruct (while_loop fuel _ _ c0 max_steps _) as [l1 [cf | e]] eqn:Hloop.
  { destruct (combine _ (carry_state cf)); [ | discriminate].
    destruct (terminate solver fn (carry_y cf) args opts p tags). discriminate. }
  injection H as <- ->.
  unfold while_loop in Hloop.
  assert (exists l' y st,
            l1 = l' ++ [call_step y st] /\
            ~ same_static st (step solver fn y args opts st tags).1.2)
    as (l' & y & st & -> & Hne).
  { destruct max_steps as [m | ];
      (eapply while_steps_assertion; [ | exact Hc0 | exact Hloop]).
    - intros c l0 [=].
    - intros c l0. cbv beta. rewrite cond_fun_eq.
      destruct (combine _ (carry_state c)) as [st | ]; [ | discriminate].
      cbn [bind].
      destruct (terminate solver fn (carry_y c) args opts st tags).1;
        discriminate. }
  exists (call_init y0 args :: l'), y, st. split; [reflexivity | exact Hne].
Qed.

Lemma assertion_names_the_step_witness :
  exists l' y st,
    [call_init (Examples.scalar 0) (Examples.scalar 5);
     call_terminate (Examples.scalar 0) (Node [Leaf (PyObj "before")]);
     call_step (Examples.scalar 0) (Node [Leaf (PyObj "before")])]
    = l' ++ [call_step y st] /\
    filter (step Examples.renamer (NoneAux Examples.shifted) y
                 (Examples.scalar 5) (options_or_empty None) st ∅).1.2
           _is_array_or_jaxpr true
    <> filter st _is_array_or_jaxpr true.
Proof.
  apply (assertion_names_the_step 0 (NoneAux Examples.shifted)
           Examples.renamer (Examples.scalar 0) (Examples.scalar 5) None
           _rewrite_fn (Some 50%nat) ImplicitAdjoint false ∅
           (Leaf (ShapeDtypeStruct [] float32)) PNone).
  vm_compute. reflexivity.
Defined.

(** ** What [successful] says *)

(** X14.  A Solution returned with the result [successful] (which is every
    Solution returned with [throw=True]) has a [value] on which the last
    call of the solve, a [terminate], asked to stop with the code
    [successful]. *)
Theorem successful_means_terminated
    (fuel : nat) (fn : Fn) (solver : AbstractIterativeSolver)
    (y0 args : pytree) (options : option (gmap string pytree))
    (rewrite_fn : rewrite_fn_t) (max_steps : option nat)
    (adjoint : AbstractAdjoint) (throw : bool) (tags : gset string)
    (f_struct aux_struct : pytree) (l : list event) (sol : Solution) :
  iterative_solve fuel fn solver y0 args options rewrite_fn max_steps adjoint
                  throw tags f_struct aux_struct = (l, Ok sol) ->
  (throw = true -> result sol = successful) /\
  (result sol = successful ->
   exists l' st,
     l = l' ++ [call_terminate (value sol) st] /\
     terminate solver fn (value sol) args (options_or_empty options) st tags
       = (true, successful)).
Proof.
  intros H. split.
  - intros ->. rewrite iterative_solve_throw in H.
    apply bind_inv_ok in H as (l1 & a & l2 & _ & H & _).
    unfold error_if in H.
    destruct (bool_decide (result a <> successful)) eqn:E; [discriminate | ].
    injection H as _ <-. apply bool_decide_eq_false in E.
    destruct (decide (result a = successful)); tauto.
  - intros Hres. apply iterative_solve_returned in H.
    pose proof (iterative_solve_run fuel fn solver y0 args options rewrite_fn
                  max_steps adjoint tags f_struct aux_struct) as Hsolve.
    cbv zeta in Hsolve. rewrite H in Hsolve.
    destruct Hsolve
      as (visited & exit & st & n & Hl & _ & _ & _ & _ & Hfinal & _).
    exists (call_init y0 args :: rounds visited ++ exit), st.
    split; [rewrite Hl; simpl; now rewrite <- app_assoc | ].
    destruct (terminate solver fn (value sol) args (options_or_empty options)
                        st tags) as [stop r].
    cbn [fst snd] in Hfinal. rewrite Hres in Hfinal.
    unfold final_result, RESULTS_where in Hfinal.
    destruct r, stop; simpl in Hfinal; congruence.
Qed.

Lemma successful_means_terminated_witness :
  let l :=
    [call_init (Examples.scalar 0) (Examples.scalar 5);
     call_terminate (Examples.scalar 0) (Examples.newton_state (-5));
     call_step (Examples.scalar 0) (Examples.newton_state (-5));
     call_terminate (Examples.scalar 5) (Examples.newton_state 0);
     call_terminate (Examples.scalar 5) (Examples.newton_state 0)] in
  let sol :=
    mk_Solution (Examples.scalar 5) successful
                (Node [Examples.scalar 0; PNone; PNone]) PNone
                {[ "num_steps" := Some 1; "max_steps" := Some 50 ]} in
  (true = true -> result sol = successful) /\
  (result sol = successful ->
   exists l' st,
     l = l' ++ [call_terminate (value sol) st] /\
     terminate Examples.newton (NoneAux Examples.shifted) (value sol)
               (Examples.scalar 5) (options_or_empty None) st ∅
       = (true, successful)).
Proof.
  intros l sol.
  apply (successful_means_terminated 0 (NoneAux Examples.shifted)
           Examples.newton (Examples.scalar 0) (Examples.scalar 5) None
           _rewrite_fn (Some 50%nat) ImplicitAdjoint true ∅
           (Leaf (ShapeDtypeStruct [] float32)) PNone l sol).
  vm_compute. reflexivity.
Defined.

(** ** The signature of [root_find] *)





(** A call without keywords at work: one step, the root, and the budget
    [256] in the statistics. *)
Example call_without_keywords :
  exists l sol,
    call_root_find 0 Examples.shifted Examples.newton (Examples.scalar 0)
                   (Some (Examples.scalar 5)) None no_keywords = (l, Ok sol) /\
    value sol = Examples.scalar 5 /\ result sol = successful /\
    stats sol !! "num_steps" = Some (Some 1) /\
    stats sol !! "max_steps" = Some (Some 256).
Proof.
  eexists _, _. split; [vm_compute; reflexivity | ].
  repeat split; vm_compute; reflexivity.
Qed.
